(** * CryptoPanic news bot: change detection, message composition and the
      update cycle of [cryptopanic_bot.py]

    The bot is a Python program working on JSON-shaped data: dictionaries
    with string keys, lists, strings, numbers.  The embedding keeps that
    dynamic shape ([pyval]), represents Python exceptions explicitly
    ([result]), and threads the one piece of mutable state
    ([self.last_sent_news]) through the cycle function. *)

From Stdlib Require Import ZArith NArith List String Ascii DecimalString.
From stdpp Require Import base option list gmap.

Local Open Scope nat_scope.

#[local] Set Warnings "-register-all".

(** ** Python strings

    [len], slicing and iteration of a Python [str] work on code points, so a
    string is a list of code points. *)

Abbreviation pystr := (list N).

Definition lit (s : string) : pystr :=
  (fun a => N_of_ascii a) <$> list_ascii_of_string s.

Definition nl : pystr := [10%N].

(** [str(i)] for a non-negative loop counter and for an [int]. *)
Definition str_of_nat (n : nat) : pystr :=
  lit (NilZero.string_of_uint (Nat.to_uint n)).

Definition str_of_Z (z : Z) : pystr :=
  lit (NilZero.string_of_int (Z.to_int z)).

(** [sep.join(parts)] on strings. *)
Fixpoint join_strs (sep : pystr) (parts : list pystr) : pystr :=
  match parts with
  | [] => []
  | [p] => p
  | p :: rest => p ++ sep ++ join_strs sep rest
  end.

(** ** Values and exceptions *)

Inductive pyval :=
| PNone
| PBool (b : bool)
| PInt (z : Z)
| PStr (s : pystr)
| PList (l : list pyval)
| PDict (d : list (pystr * pyval)).

Inductive exn :=
| KeyError (key : pystr)
| TypeError
| AttributeError
| ExternalError (what : pystr).

Inductive result (A : Type) :=
| Ok (a : A)
| Raise (e : exn).

Arguments Ok {A} a.
Arguments Raise {A} e.

#[global] Instance result_ret : MRet result := fun _ a => Ok a.
#[global] Instance result_bind : MBind result := fun _ _ f m =>
  match m with
  | Ok a => f a
  | Raise e => Raise e
  end.

(** [try: body except Exception as e: handler(e)] *)
Definition try_except {A} (body : result A) (handler : exn -> A) : A :=
  match body with
  | Ok a => a
  | Raise e => handler e
  end.

(** Text conversions of the Python runtime that the bot relies on but does
    not define: [str()] of a list or dictionary, and [str(e)] of an
    exception. *)
Class PyRuntime := {
  py_repr : pyval -> pystr;
  exn_str : exn -> pystr
}.

(** ** Primitive operations *)

(** Truth value of an object, as tested by [if x] and [not x]. *)
Definition truthy (v : pyval) : bool :=
  match v with
  | PNone => false
  | PBool b => b
  | PInt z => negb (Z.eqb z 0)
  | PStr s => negb (Nat.eqb (length s) 0)
  | PList l => negb (Nat.eqb (length l) 0)
  | PDict d => negb (Nat.eqb (length d) 0)
  end.

Fixpoint dict_lookup (k : pystr) (d : list (pystr * pyval)) : option pyval :=
  match d with
  | [] => None
  | (k', v) :: rest => if decide (k = k') then Some v else dict_lookup k rest
  end.

(** [v[k]] with a string key [k]. *)
Definition py_getitem (v : pyval) (k : pystr) : result pyval :=
  match v with
  | PDict d =>
      match dict_lookup k d with
      | Some x => Ok x
      | None => Raise (KeyError k)
      end
  | _ => Raise TypeError
  end.

(** [v.get(k, default)] *)
Definition py_get (v : pyval) (k : pystr) (default : pyval) : result pyval :=
  match v with
  | PDict d =>
      match dict_lookup k d with
      | Some x => Ok x
      | None => Ok default
      end
  | _ => Raise AttributeError
  end.

(** [v.values()] *)
Definition py_values (v : pyval) : result (list pyval) :=
  match v with
  | PDict d => Ok (snd <$> d)
  | _ => Raise AttributeError
  end.

(** [len(v)] *)
Definition py_len (v : pyval) : result nat :=
  match v with
  | PStr s => Ok (length s)
  | PList l => Ok (length l)
  | PDict d => Ok (length d)
  | _ => Raise TypeError
  end.

(** The elements produced by iterating over [v]. *)
Definition py_iter (v : pyval) : result (list pyval) :=
  match v with
  | PStr s => Ok ((fun c => PStr [c]) <$> s)
  | PList l => Ok l
  | PDict d => Ok ((fun kv => PStr (fst kv)) <$> d)
  | _ => Raise TypeError
  end.

(** [v[:n]] *)
Definition py_slice_to (n : nat) (v : pyval) : result pyval :=
  match v with
  | PStr s => Ok (PStr (take n s))
  | PList l => Ok (PList (take n l))
  | _ => Raise TypeError
  end.

(** [v + s] where the right operand is a string literal. *)
Definition py_add_str (v : pyval) (s : pystr) : result pyval :=
  match v with
  | PStr t => Ok (PStr (t ++ s))
  | _ => Raise TypeError
  end.

Definition as_str (v : pyval) : result pystr :=
  match v with
  | PStr s => Ok s
  | _ => Raise TypeError
  end.

(** [sep.join(v)] *)
Definition py_join (sep : pystr) (v : pyval) : result pystr :=
  parts ← py_iter v;
  strs ← mapM as_str parts;
  Ok (join_strs sep strs).

(** [str(v)], which is what an f-string field applies to its value. *)
Definition py_str `{PyRuntime} (v : pyval) : pystr :=
  match v with
  | PNone => lit "None"
  | PBool true => lit "True"
  | PBool false => lit "False"
  | PInt z => str_of_Z z
  | PStr s => s
  | PList _ | PDict _ => py_repr v
  end.

(** ** Hashable keys

    Members of a Python [set] are compared with [==] after hashing; [True]
    and [1] are the same member, lists and dictionaries cannot be members. *)

Inductive hkey :=
| HNone
| HNum (z : Z)
| HStr (s : pystr).

#[global] Instance hkey_eq_dec : EqDecision hkey.
Proof. solve_decision. Defined.

Definition hkey_code (k : hkey) : unit + (Z + pystr) :=
  match k with
  | HNone => inl tt
  | HNum z => inr (inl z)
  | HStr s => inr (inr s)
  end.

Definition hkey_decode (c : unit + (Z + pystr)) : hkey :=
  match c with
  | inl _ => HNone
  | inr (inl z) => HNum z
  | inr (inr s) => HStr s
  end.

#[global] Instance hkey_countable : Countable hkey.
Proof.
  apply (inj_countable' hkey_code hkey_decode).
  intros [ | z | s]; reflexivity.
Defined.

#[global] Instance HStr_inj : Inj (=) (=) HStr.
Proof. intros a b Hab. congruence. Qed.

Definition hash_key (v : pyval) : result hkey :=
  match v with
  | PNone => Ok HNone
  | PBool b => Ok (HNum (if b then 1%Z else 0%Z))
  | PInt z => Ok (HNum z)
  | PStr s => Ok (HStr s)
  | PList _ | PDict _ => Raise TypeError
  end.

(** ** Change detection: [should_send_update] *)

Definition sentiments : list pystr :=
  [lit "bullish"; lit "bearish"; lit "neutral"].

(** [{item["title"] for item in v}] *)
Definition title_set (v : pyval) : result (gset hkey) :=
  items ← py_iter v;
  keys ← mapM (fun item => t ← py_getitem item (lit "title"); hash_key t) items;
  Ok (list_to_set keys).

(** The body of the [for sentiment in ...] loop, for one sentiment: the
    number it adds to [new_items]. *)
Definition new_titles (last_sent_news news_data : pyval) (sentiment : pystr)
  : result nat :=
  cur ← py_getitem news_data sentiment;
  current_titles ← title_set cur;
  prev ← py_get last_sent_news sentiment (PList []);
  previous_titles ← title_set prev;
  Ok (size (current_titles ∖ previous_titles)).

Fixpoint count_new_items (last_sent_news news_data : pyval)
    (todo : list pystr) (new_items : nat) : result nat :=
  match todo with
  | [] => Ok new_items
  | sentiment :: rest =>
      n ← new_titles last_sent_news news_data sentiment;
      count_new_items last_sent_news news_data rest (new_items + n)
  end.

(** The [try] block of [should_send_update]. *)
Definition should_send_update_body (last_sent_news news_data : pyval)
  : result bool :=
  if negb (truthy last_sent_news) then Ok true
  else
    new_items ← count_new_items last_sent_news news_data sentiments 0;
    Ok (3 <=? new_items).

Definition should_send_update (last_sent_news news_data : pyval) : bool :=
  try_except (should_send_update_body last_sent_news news_data)
             (fun _ => true).

(** ** Message composition: [format_telegram_message] *)

Definition bell : N := 0x1F514%N.
Definition chart_up : N := 0x1F4C8%N.
Definition chart_down : N := 0x1F4C9%N.
Definition scales : pystr := [0x2696%N; 0xFE0F%N].
Definition brain : N := 0x1F9E0%N.

Definition header : pystr :=
  [bell] ++ lit " *CRYPTO NEWS SENTIMENT UPDATE* " ++ [bell] ++ nl ++ nl.

Definition analysis_block (fud_analysis : pystr) : pystr :=
  lit "*AI SENTIMENT ANALYSIS*" ++ nl ++ fud_analysis ++ nl ++ nl.

Definition bullish_header : pystr :=
  [chart_up] ++ lit " *BULLISH NEWS*" ++ nl ++ nl.
Definition bearish_header : pystr :=
  [chart_down] ++ lit " *BEARISH NEWS*" ++ nl ++ nl.
Definition neutral_header : pystr :=
  scales ++ lit " *NEUTRAL NEWS*" ++ nl ++ nl.

Definition footer (now : pystr) : pystr :=
  lit "_Updated on " ++ now ++ lit " UTC_" ++ nl
  ++ lit "_This is not financial advice. DYOR!_ " ++ [brain].

(** "Format currencies": the text appended after the link. *)
Definition currencies_text (item : pyval) : result pystr :=
  c ← py_getitem item (lit "currencies");
  if truthy c then
    joined ← py_join (lit ", ") c;
    Ok (lit " [" ++ joined ++ lit "]")
  else Ok [].

(** "Clean up title - truncate if too long". *)
Definition clean_title (title : pyval) : result pyval :=
  n ← py_len title;
  if 100 <? n then
    cut ← py_slice_to 97 title;
    py_add_str cut (lit "...")
  else Ok title.

(** The two lines one loop iteration appends to [message]. *)
Definition render_item `{PyRuntime} (i : nat) (item : pyval) : result pystr :=
  currencies ← currencies_text item;
  t ← py_getitem item (lit "title");
  title ← clean_title t;
  url ← py_getitem item (lit "url");
  source ← py_getitem item (lit "source");
  Ok (str_of_nat i ++ lit ". [" ++ py_str title ++ lit "](" ++ py_str url
        ++ lit ")" ++ currencies ++ nl
      ++ lit "   *Source:* " ++ py_str source ++ nl ++ nl).

(** [for i, item in enumerate(items, i): message += ...] *)
Fixpoint render_items `{PyRuntime} (i : nat) (items : list pyval)
    (message : pystr) : result pystr :=
  match items with
  | [] => Ok message
  | item :: rest =>
      text ← render_item i item;
      render_items (S i) rest (message ++ text)
  end.

(** One of the three category blocks: [if news_data[key]: ...]. *)
Definition render_block `{PyRuntime} (block_header key : pystr)
    (news_data : pyval) (message : pystr) : result pystr :=
  block ← py_getitem news_data key;
  if truthy block then
    top ← py_slice_to 5 block;
    items ← py_iter top;
    render_items 1 items (message ++ block_header)
  else Ok message.

(** The [try] block of [format_telegram_message]; [now] is the text
    [datetime.now().strftime('%Y-%m-%d %H:%M')] yields. *)
Definition format_body `{PyRuntime} (now : pystr) (news_data : pyval)
    (fud_analysis : pystr) : result pystr :=
  let message := header in
  let message :=
    if truthy (PStr fud_analysis) then message ++ analysis_block fud_analysis
    else message in
  message ← render_block bullish_header (lit "bullish") news_data message;
  message ← render_block bearish_header (lit "bearish") news_data message;
  message ← render_block neutral_header (lit "neutral") news_data message;
  Ok (message ++ footer now).

Definition format_telegram_message `{PyRuntime} (now : pystr)
    (news_data : pyval) (fud_analysis : pystr) : pystr :=
  try_except (format_body now news_data fud_analysis)
             (fun e => lit "Error formatting news: " ++ exn_str e).

(** ** The feed: [fetch_cryptopanic_api] *)

(** What one [client.get(...)] does: it raises (no connection, timeout), or
    it returns a response with a status code whose [.json()] yields a value
    or raises. *)
Inductive http_reply :=
| GetRaises (e : exn)
| Response (status_code : Z) (json : result pyval).

Record feed := {
  api_key_set : bool;
  bullish_reply : http_reply;
  bearish_reply : http_reply;
  neutral_reply : http_reply
}.

Definition news_dict (bullish bearish neutral : list pyval) : pyval :=
  PDict [ (lit "bullish", PList bullish);
          (lit "bearish", PList bearish);
          (lit "neutral", PList neutral) ].

(** The dictionary appended for one entry of ["results"]. *)
Definition news_item_of (sentiment : pystr) (item : pyval) : result pyval :=
  title ← py_get item (lit "title") (PStr []);
  url ← py_get item (lit "url") (PStr []);
  src ← py_get item (lit "source") (PDict []);
  source ← py_get src (lit "title") (PStr (lit "Unknown"));
  published_at ← py_get item (lit "published_at") (PStr []);
  cur ← py_get item (lit "currencies") (PList []);
  cs ← py_iter cur;
  codes ← mapM (fun c => py_get c (lit "code") PNone) cs;
  Ok (PDict [ (lit "title", title);
              (lit "url", url);
              (lit "source", source);
              (lit "published_at", published_at);
              (lit "currencies", PList codes);
              (lit "sentiment", PStr sentiment) ]).

(** The [for item in data.get("results", [])] loop.  The list is appended
    to in place, so the entries added before an exception stay. *)
Fixpoint append_items (sentiment : pystr) (results collected : list pyval)
  : list pyval * option exn :=
  match results with
  | [] => (collected, None)
  | item :: rest =>
      match news_item_of sentiment item with
      | Ok entry => append_items sentiment rest (collected ++ [entry])
      | Raise e => (collected, Some e)
      end
  end.

(** "Process bullish news" and its two siblings: the list collected for
    the category and the exception that interrupted it, if any. *)
Definition process_reply (sentiment : pystr) (status_code : Z)
    (json : result pyval) : list pyval * option exn :=
  if Z.eqb status_code 200 then
    match (data ← json;
           results ← py_get data (lit "results") (PList []);
           py_iter results) with
    | Ok items => append_items sentiment items []
    | Raise e => ([], Some e)
    end
  else ([], None).

Definition fetch_cryptopanic_api (w : feed) : pyval :=
  if negb (api_key_set w) then news_dict [] [] []
  else
    match bullish_reply w, bearish_reply w, neutral_reply w with
    | Response s1 j1, Response s2 j2, Response s3 j3 =>
        let '(bullish, e1) := process_reply (lit "bullish") s1 j1 in
        match e1 with
        | Some _ => news_dict bullish [] []
        | None =>
            let '(bearish, e2) := process_reply (lit "bearish") s2 j2 in
            match e2 with
            | Some _ => news_dict bullish bearish []
            | None =>
                let '(neutral, _) := process_reply (lit "neutral") s3 j3 in
                news_dict bullish bearish neutral
            end
        end
    | _, _, _ => news_dict [] [] []
    end.

(** ** The update cycle: [send_news_update] *)

(** What the outside world does during one cycle. [openai_client] is [None]
    when no key is configured; otherwise it stands for the prompt
    construction and the API call of [generate_fud_analysis], which yield a
    text or raise. [send_message] yields [None] when Telegram accepts the
    message and the exception otherwise. *)
Record collaborators := {
  the_feed : feed;
  openai_client : option (pyval -> result pystr);
  now : pystr;
  send_message : pystr -> option exn
}.

Definition generate_fud_analysis (client : option (pyval -> result pystr))
    (news_data : pyval) : pystr :=
  match client with
  | None => []
  | Some call => try_except (call news_data) (fun _ => [])
  end.

(** [sum(len(items) for items in news_data.values())] *)
Definition total_news (news_data : pyval) : result nat :=
  vals ← py_values news_data;
  lens ← mapM py_len vals;
  Ok (sum_list lens).

(** How a cycle ended, one constructor per log line of
    [send_news_update]. *)
Inductive outcome :=
| NoNews
| NotSignificant
| Sent
| Failed (e : exn).

Record cycle_result := {
  last_sent_news : pyval;
  ended : outcome;
  handed_over : list pystr
}.

Definition send_news_update `{PyRuntime} (state : pyval) (c : collaborators)
  : cycle_result :=
  let news_data := fetch_cryptopanic_api (the_feed c) in
  match total_news news_data with
  | Raise e => {| last_sent_news := state; ended := Failed e; handed_over := [] |}
  | Ok total =>
      if Nat.eqb total 0 then
        {| last_sent_news := state; ended := NoNews; handed_over := [] |}
      else if negb (should_send_update state news_data) then
        {| last_sent_news := state; ended := NotSignificant; handed_over := [] |}
      else
        let fud_analysis :=
          match openai_client c with
          | Some _ => generate_fud_analysis (openai_client c) news_data
          | None => []
          end in
        let message := format_telegram_message (now c) news_data fud_analysis in
        match send_message c message with
        | Some e =>
            {| last_sent_news := state; ended := Failed e;
               handed_over := [message] |}
        | None =>
            {| last_sent_news := news_data; ended := Sent;
               handed_over := [message] |}
        end
  end.

(** The value of [self.last_sent_news] set by [__init__]. *)
Definition initial_state : pyval := PDict [].

(** ** Well-typed news

    The shape [fetch_cryptopanic_api] builds when the feed's fields are
    text: every entry is a dictionary with the six keys of the literal in
    "Process bullish news", and the snapshot has the three categories. *)

Record NewsItem := {
  title : pystr;
  url : pystr;
  source : pystr;
  published_at : pystr;
  currencies : list pystr
}.

Record Snapshot := {
  bullish : list NewsItem;
  bearish : list NewsItem;
  neutral : list NewsItem
}.

Definition item_dict (sentiment : pystr) (it : NewsItem) : pyval :=
  PDict [ (lit "title", PStr (title it));
          (lit "url", PStr (url it));
          (lit "source", PStr (source it));
          (lit "published_at", PStr (published_at it));
          (lit "currencies", PList (PStr <$> currencies it));
          (lit "sentiment", PStr sentiment) ].

Definition snapshot_dict (s : Snapshot) : pyval :=
  news_dict (item_dict (lit "bullish") <$> bullish s)
            (item_dict (lit "bearish") <$> bearish s)
            (item_dict (lit "neutral") <$> neutral s).

Definition category (s : Snapshot) (sentiment : pystr) : list NewsItem :=
  if decide (sentiment = lit "bullish") then bullish s
  else if decide (sentiment = lit "bearish") then bearish s
  else if decide (sentiment = lit "neutral") then neutral s
  else [].

(** The feed entry a well-typed item comes from, and a reply carrying a
    list of them. *)
Definition feed_entry (it : NewsItem) : pyval :=
  PDict [ (lit "title", PStr (title it));
          (lit "url", PStr (url it));
          (lit "source", PDict [ (lit "title", PStr (source it)) ]);
          (lit "published_at", PStr (published_at it));
          (lit "currencies",
            PList ((fun c => PDict [ (lit "code", PStr c) ]) <$> currencies it)) ].

Definition ok_reply (items : list NewsItem) : http_reply :=
  Response 200 (Ok (PDict [ (lit "results", PList (feed_entry <$> items)) ])).

Definition feed_of (s : Snapshot) : feed :=
  {| api_key_set := true;
     bullish_reply := ok_reply (bullish s);
     bearish_reply := ok_reply (bearish s);
     neutral_reply := ok_reply (neutral s) |}.

(** ** The change count in the specification's words

    "For each of the three categories independently: compute the set of
    item-identity keys (title text) present in current[category] but absent
    from previous[category].  Sum the counts across all three categories." *)

Definition new_keys (previous current : list NewsItem) : list pystr :=
  remove_dups (list_difference (title <$> current) (title <$> previous)).

Definition new_item_count (previous current : Snapshot) : nat :=
  length (new_keys (bullish previous) (bullish current))
  + length (new_keys (bearish previous) (bearish current))
  + length (new_keys (neutral previous) (neutral current)).

(** "Differing only by removed items": no category of [current] has a title
    that the same category of [previous] lacks. *)
Definition only_removals (previous current : Snapshot) : Prop :=
  title <$> bullish current ⊆ title <$> bullish previous
  ∧ title <$> bearish current ⊆ title <$> bearish previous
  ∧ title <$> neutral current ⊆ title <$> neutral previous.

Definition is_empty (s : Snapshot) : bool :=
  match bullish s, bearish s, neutral s with
  | [], [], [] => true
  | _, _, _ => false
  end.

(** ** What a well-typed item looks like in the message *)

Definition shown_title (t : pystr) : pystr :=
  if 100 <? length t then take 97 t ++ lit "..." else t.

Definition shown_codes (codes : list pystr) : pystr :=
  match codes with
  | [] => []
  | _ => lit " [" ++ join_strs (lit ", ") codes ++ lit "]"
  end.

Definition entry_text (i : nat) (it : NewsItem) : pystr :=
  str_of_nat i ++ lit ". [" ++ shown_title (title it) ++ lit "](" ++ url it
    ++ lit ")" ++ shown_codes (currencies it) ++ nl
  ++ lit "   *Source:* " ++ source it ++ nl ++ nl.

Definition shown_items (items : list NewsItem) : list NewsItem := take 5 items.

(** The entries of a block, numbered from [i]. *)
Fixpoint entries_from (i : nat) (items : list NewsItem) : list pystr :=
  match items with
  | [] => []
  | it :: rest => entry_text i it :: entries_from (S i) rest
  end.

Definition block_text (block_header : pystr) (items : list NewsItem) : pystr :=
  match items with
  | [] => []
  | _ => block_header ++ concat (entries_from 1 (shown_items items))
  end.

Definition narrative_text (fud_analysis : pystr) : pystr :=
  match fud_analysis with
  | [] => []
  | _ => analysis_block fud_analysis
  end.

(** Substring test, for statements about what a message contains. *)
Fixpoint starts_with (p s : pystr) : bool :=
  match p, s with
  | [], _ => true
  | _ :: _, [] => false
  | a :: p', b :: s' => N.eqb a b && starts_with p' s'
  end.

Fixpoint contains (needle hay : pystr) : bool :=
  starts_with needle hay
  || match hay with
     | [] => false
     | _ :: rest => contains needle rest
     end.

(** ** Sample data *)

Definition plain_runtime : PyRuntime :=
  {| py_repr := fun _ => lit "<object>"; exn_str := fun _ => lit "<error>" |}.

Definition sample_item (t : string) (codes : list pystr) : NewsItem :=
  {| title := lit t;
     url := lit "https://cryptopanic.com/news/1";
     source := lit "CoinDesk";
     published_at := lit "2024-01-01T00:00:00Z";
     currencies := codes |}.

Definition item_a := sample_item "ETF approved" [lit "BTC"; lit "ETH"].
Definition item_b := sample_item "Network upgrade ships" [lit "SOL"].
Definition item_c := sample_item "Exchange adds staking" [].
Definition item_d := sample_item "Funding round closed" [lit "XRP"].

Definition three_bullish : Snapshot :=
  {| bullish := [item_a; item_b; item_c]; bearish := []; neutral := [] |}.

Definition four_bullish : Snapshot :=
  {| bullish := [item_a; item_b; item_c; item_d]; bearish := []; neutral := [] |}.

Definition two_bullish : Snapshot :=
  {| bullish := [item_b; item_c]; bearish := []; neutral := [] |}.

Definition no_codes_only : Snapshot :=
  {| bullish := [item_c]; bearish := []; neutral := [] |}.

Definition long_title_item : NewsItem :=
  {| title := replicate 150 120%N;
     url := lit "https://cryptopanic.com/news/2";
     source := lit "Decrypt";
     published_at := [];
     currencies := [lit "BTC"] |}.

Definition accept_all (message : pystr) : option exn := None.
Definition reject_all (message : pystr) : option exn :=
  Some (ExternalError (lit "Timed out")).

Definition world (f : feed) (send : pystr -> option exn) : collaborators :=
  {| the_feed := f; openai_client := None; now := lit "2024-01-01 12:00";
     send_message := send |}.

(** Bullish answers with three entries, bearish with HTTP 500, neutral with
    an empty result list. *)
Definition bearish_down : feed :=
  {| api_key_set := true;
     bullish_reply := ok_reply [item_a; item_b; item_c];
     bearish_reply := Response 500 (Raise (ExternalError (lit "not JSON")));
     neutral_reply := ok_reply [] |}.

(** The bullish request times out. *)
Definition bullish_timeout : feed :=
  {| api_key_set := true;
     bullish_reply := GetRaises (ExternalError (lit "ReadTimeout"));
     bearish_reply := ok_reply [item_a; item_b; item_c];
     neutral_reply := ok_reply [item_d] |}.

(** A state and a snapshot on which the comparison itself raises: the
    title of the only neutral entry is a list. *)
Definition odd_snapshot : pyval :=
  news_dict [] [] [PDict [ (lit "title", PList [PInt 1%Z]) ]].

Definition fifty_bullish : Snapshot :=
  {| bullish := replicate 50 item_a; bearish := []; neutral := [] |}.

Definition nothing : Snapshot :=
  {| bullish := []; bearish := []; neutral := [] |}.

(** ** Ways a fetch can fail *)



(** A network error, a timeout, a non-success status or a body that is not
    JSON, on any of the three requests. *)
Definition reply_failed (r : http_reply) : bool :=
  match r with
  | GetRaises _ => true
  | Response status_code (Ok _) => negb (Z.eqb status_code 200)
  | Response _ (Raise _) => true
  end.

Definition fetch_failed (w : feed) : bool :=
  reply_failed (bullish_reply w) || reply_failed (bearish_reply w)
  || reply_failed (neutral_reply w).











Definition skipped (o : outcome) : bool :=
  match o with
  | NoNews | NotSignificant => true
  | Sent | Failed _ => false
  end.

(** ** Configuration *)

Definition CRYPTOCURRENCIES : list pystr :=
  [lit "BTC"; lit "ETH"; lit "SOL"; lit "XRP"; lit "DOGE"].

(** ** The narrative request: the [try] block of [generate_fud_analysis] *)

(** [str.isspace] on one character. *)
Definition is_space (c : N) : bool :=
  (N.leb 9 c && N.leb c 13) || (N.leb 28 c && N.leb c 32)
  || N.eqb c 0x85 || N.eqb c 0xA0 || N.eqb c 0x1680
  || (N.leb 0x2000 c && N.leb c 0x200A)
  || N.eqb c 0x2028 || N.eqb c 0x2029 || N.eqb c 0x202F
  || N.eqb c 0x205F || N.eqb c 0x3000.

Fixpoint lstrip (s : pystr) : pystr :=
  match s with
  | [] => []
  | c :: rest => if is_space c then lstrip rest else s
  end.

Definition strip (s : pystr) : pystr :=
  reverse (lstrip (reverse (lstrip s))).

(** [v.strip()] *)
Definition py_strip (v : pyval) : result pystr :=
  match v with
  | PStr s => Ok (strip s)
  | _ => Raise AttributeError
  end.

(** One line of the news summary. *)
Definition summary_line `{PyRuntime} (i : nat) (item : pyval) : result pystr :=
  c ← py_getitem item (lit "currencies");
  currencies ← (if truthy c then py_join (lit ", ") c
                else Ok (lit "general market"));
  t ← py_getitem item (lit "title");
  Ok (str_of_nat i ++ lit ". " ++ py_str t ++ lit " (" ++ currencies
        ++ lit ")" ++ nl).

Fixpoint summary_items `{PyRuntime} (i : nat) (items : list pyval)
    (news_summary : pystr) : result pystr :=
  match items with
  | [] => Ok news_summary
  | item :: rest =>
      text ← summary_line i item;
      summary_items (S i) rest (news_summary ++ text)
  end.

(** "Add bullish news" and its siblings; [cap] is 3, 3 and 2. *)
Definition summary_block `{PyRuntime} (heading key : pystr) (cap : nat)
    (news_data : pyval) (news_summary : pystr) : result pystr :=
  block ← py_getitem news_data key;
  if truthy block then
    top ← py_slice_to cap block;
    items ← py_iter top;
    summary_items 1 items (news_summary ++ heading)
  else Ok news_summary.

Definition bullish_heading : pystr := nl ++ lit "BULLISH NEWS:" ++ nl.
Definition bearish_heading : pystr := nl ++ lit "BEARISH NEWS:" ++ nl.
Definition neutral_heading : pystr := nl ++ lit "NEUTRAL NEWS:" ++ nl.

Definition build_news_summary `{PyRuntime} (news_data : pyval) : result pystr :=
  news_summary ← summary_block bullish_heading (lit "bullish") 3 news_data [];
  news_summary ← summary_block bearish_heading (lit "bearish") 3 news_data
                   news_summary;
  summary_block neutral_heading (lit "neutral") 2 news_data news_summary.

(** The indentation the two triple-quoted texts carry on every line. *)
Definition indent : pystr := replicate 12 32%N.

Definition system_message : pystr :=
  nl ++ indent
  ++ lit "You are a high-energy, meme-loving cryptocurrency analyst. Your mission is to analyze market news with a combination of technical knowledge and crypto-culture humor."
  ++ nl ++ indent
  ++ nl ++ indent
  ++ lit "Provide a brief, entertaining summary of the crypto market sentiment based on the news articles."
  ++ nl ++ indent
  ++ lit "Use crypto slang, emojis, and meme references in your analysis."
  ++ nl ++ indent
  ++ lit "Keep it concise (2-3 sentences max) but make it entertaining and informative."
  ++ nl ++ indent
  ++ lit "Focus on the overall sentiment and any standout news items."
  ++ nl ++ indent.

Definition user_message (bullish_count bearish_count neutral_count : nat)
    (news_summary : pystr) : pystr :=
  nl ++ indent
  ++ lit "Based on the following crypto news, create a brief, entertaining crypto market sentiment summary:"
  ++ nl ++ indent
  ++ nl ++ indent ++ lit "Bullish News Count: " ++ str_of_nat bullish_count
  ++ nl ++ indent ++ lit "Bearish News Count: " ++ str_of_nat bearish_count
  ++ nl ++ indent ++ lit "Neutral News Count: " ++ str_of_nat neutral_count
  ++ nl ++ indent
  ++ nl ++ indent ++ news_summary
  ++ nl ++ indent
  ++ nl ++ indent
  ++ lit "The top cryptocurrencies mentioned in these news articles are: "
  ++ join_strs (lit ", ") CRYPTOCURRENCIES
  ++ nl ++ indent
  ++ nl ++ indent
  ++ lit "Please provide a brief FUD (Fear, Uncertainty, Doubt) analysis with crypto humor and memes. Keep it to 2-3 sentences maximum."
  ++ nl ++ indent.

(** The [try] block of [generate_fud_analysis].  [chat system user] stands
    for the chat-completion request and the access to
    [response.choices[0].message.content]: it yields that value or raises. *)
Definition fud_call `{PyRuntime} (chat : pystr -> pystr -> result pyval)
    (news_data : pyval) : result pystr :=
  b ← py_getitem news_data (lit "bullish");
  bullish_count ← py_len b;
  be ← py_getitem news_data (lit "bearish");
  bearish_count ← py_len be;
  n ← py_getitem news_data (lit "neutral");
  neutral_count ← py_len n;
  news_summary ← build_news_summary news_data;
  content ← chat system_message
              (user_message bullish_count bearish_count neutral_count
                 news_summary);
  py_strip content.

(** What a well-typed item looks like in the news summary. *)
Definition summary_codes (codes : list pystr) : pystr :=
  match codes with
  | [] => lit "general market"
  | _ => join_strs (lit ", ") codes
  end.

Definition summary_entry (i : nat) (it : NewsItem) : pystr :=
  str_of_nat i ++ lit ". " ++ title it ++ lit " (" ++ summary_codes (currencies it)
    ++ lit ")" ++ nl.

Fixpoint summary_entries (i : nat) (items : list NewsItem) : list pystr :=
  match items with
  | [] => []
  | it :: rest => summary_entry i it :: summary_entries (S i) rest
  end.

Definition summary_text (heading : pystr) (cap : nat) (items : list NewsItem)
  : pystr :=
  match items with
  | [] => []
  | _ => heading ++ concat (summary_entries 1 (take cap items))
  end.

(** ** The scheduler: [schedule_updates]

    The loop runs a cycle, sleeps, and repeats for ever; [cycles] lists what
    the outside world does in the iterations observed. *)
Fixpoint schedule_updates `{PyRuntime} (state : pyval)
    (cycles : list collaborators) : pyval * list cycle_result :=
  match cycles with
  | [] => (state, [])
  | c :: rest =>
      let r := send_news_update state c in
      let '(final, later) := schedule_updates (last_sent_news r) rest in
      (final, r :: later)
  end.

(** Seconds between two scheduled cycles. *)
Definition UPDATE_INTERVAL : Z := (60 * 60 * 12)%Z.

(** ** More sample data *)

Definition null_source_entry : pyval :=
  PDict [ (lit "title", PStr (lit "Broken entry")); (lit "source", PNone) ].

Definition null_title_feed : feed :=
  {| api_key_set := true;
     bullish_reply :=
       Response 200 (Ok (PDict [ (lit "results",
                                   PList [PDict [ (lit "title", PNone) ]]) ]));
     bearish_reply := ok_reply [];
     neutral_reply := ok_reply [] |}.

Definition one_bullish : Snapshot :=
  {| bullish := [item_a]; bearish := []; neutral := [] |}.

Definition moved_to_bearish : Snapshot :=
  {| bullish := []; bearish := [item_a; item_b; item_c]; neutral := [] |}.

Definition failing_client (news_data : pyval) : result pystr :=
  Raise (ExternalError (lit "RateLimitError")).

Definition blank_chat (system user : pystr) : result pyval :=
  Ok (PStr (lit "   ")).

Definition world_with (client : option (pyval -> result pystr)) (f : feed)
    (send : pystr -> option exn) : collaborators :=
  {| the_feed := f; openai_client := client; now := lit "2024-01-01 12:00";
     send_message := send |}.

(** ** Vocabulary for the statements *)

(** An entry as "Process bullish news" builds it: the six keys in the order
    of the literal, a list under ["currencies"], the category under
    ["sentiment"]. *)
Definition tagged_entry (sentiment : pystr) (entry : pyval) : Prop :=
  exists t u src p codes,
    entry = PDict [ (lit "title", t);
                    (lit "url", u);
                    (lit "source", src);
                    (lit "published_at", p);
                    (lit "currencies", PList codes);
                    (lit "sentiment", PStr sentiment) ].

Definition same_elements (a b : list pystr) : Prop :=
  forall t, t ∈ a <-> t ∈ b.

(** The two snapshots show the same titles in each category, in whatever
    order, multiplicity and with whatever other fields. *)
Definition same_titles (a b : Snapshot) : Prop :=
  same_elements (title <$> bullish a) (title <$> bullish b)
  /\ same_elements (title <$> bearish a) (title <$> bearish b)
  /\ same_elements (title <$> neutral a) (title <$> neutral b).

(** Every title of a category of [a] is in the same category of [b]. *)
Definition titles_included (a b : Snapshot) : Prop :=
  title <$> bullish a ⊆ title <$> bullish b
  /\ title <$> bearish a ⊆ title <$> bearish b
  /\ title <$> neutral a ⊆ title <$> neutral b.

Definition distinct_titles (s : Snapshot) : nat :=
  length (remove_dups (title <$> bullish s))
  + length (remove_dups (title <$> bearish s))
  + length (remove_dups (title <$> neutral s)).

(** The values [self.last_sent_news] takes: the empty dictionary of
    [__init__], or a fetched snapshot with at least one entry. *)
Definition state_ok (state : pyval) : Prop :=
  state = initial_state
  \/ exists b be n,
       state = news_dict b be n /\ 0 < length b + length be + length n.

Definition without_client (c : collaborators) : collaborators :=
  {| the_feed := the_feed c; openai_client := None; now := now c;
     send_message := send_message c |}.

(** The text handed to delivery in a cycle that gets that far. *)
Definition cycle_message `{PyRuntime} (c : collaborators) : pystr :=
  format_telegram_message (now c) (fetch_cryptopanic_api (the_feed c))
    (generate_fud_analysis (openai_client c)
       (fetch_cryptopanic_api (the_feed c))).

Definition three_bullish_reordered : Snapshot :=
  {| bullish :=
       [ item_c; item_a;
         {| title := title item_b; url := lit "https://example.org/other";
            source := lit "Elsewhere"; published_at := []; currencies := [] |};
         item_a ];
     bearish := []; neutral := [] |}.

Definition results_with_broken_entry : feed :=
  {| api_key_set := true;
     bullish_reply :=
       Response 200
         (Ok (PDict [ (lit "results",
                       PList ((feed_entry <$> [item_a; item_b])
                              ++ null_source_entry :: [feed_entry item_c])) ]));
     bearish_reply := ok_reply [item_d];
     neutral_reply := ok_reply [item_d] |}.

(** * Properties *)

(** ** Reading well-typed dictionaries *)

Lemma item_dict_title s it :
  py_getitem (item_dict s it) (lit "title") = Ok (PStr (title it)).
Proof. reflexivity. Qed.

Lemma item_dict_url s it :
  py_getitem (item_dict s it) (lit "url") = Ok (PStr (url it)).
Proof. reflexivity. Qed.

Lemma item_dict_source s it :
  py_getitem (item_dict s it) (lit "source") = Ok (PStr (source it)).
Proof. reflexivity. Qed.

Lemma item_dict_currencies s it :
  py_getitem (item_dict s it) (lit "currencies")
  = Ok (PList (PStr <$> currencies it)).
Proof. reflexivity. Qed.

Lemma snapshot_dict_getitem (s : Snapshot) :
  py_getitem (snapshot_dict s) (lit "bullish")
  = Ok (PList (item_dict (lit "bullish") <$> bullish s))
  /\ py_getitem (snapshot_dict s) (lit "bearish")
     = Ok (PList (item_dict (lit "bearish") <$> bearish s))
  /\ py_getitem (snapshot_dict s) (lit "neutral")
     = Ok (PList (item_dict (lit "neutral") <$> neutral s)).
Proof. repeat split; reflexivity. Qed.

Lemma snapshot_dict_get (s : Snapshot) sentiment default :
  sentiment ∈ sentiments ->
  py_get (snapshot_dict s) sentiment default
  = py_getitem (snapshot_dict s) sentiment.
Proof.
  unfold sentiments. rewrite !elem_of_cons, elem_of_nil.
  intros [-> | [-> | [-> | []]]]; reflexivity.
Qed.

(** ** The title sets of well-typed categories *)

Lemma title_keys s (items : list NewsItem) :
  mapM (fun item => t ← py_getitem item (lit "title"); hash_key t)
       (item_dict s <$> items)
  = Ok (HStr <$> (title <$> items)).
Proof.
  induction items as [ | it items IH]; [reflexivity | ].
  rewrite fmap_cons. cbn [mapM]. rewrite item_dict_title.
  cbn [mbind result_bind hash_key]. rewrite IH. reflexivity.
Qed.

Lemma title_set_items s (items : list NewsItem) :
  title_set (PList (item_dict s <$> items))
  = Ok (list_to_set (HStr <$> (title <$> items))).
Proof.
  unfold title_set. cbn [py_iter mbind result_bind].
  rewrite title_keys. reflexivity.
Qed.

Lemma size_new_keys (prev cur : list pystr) :
  size ((list_to_set (HStr <$> cur) : gset hkey) ∖ list_to_set (HStr <$> prev))
  = length (remove_dups (list_difference cur prev)).
Proof.
  assert (Hset :
    (list_to_set (HStr <$> cur) : gset hkey) ∖ list_to_set (HStr <$> prev)
    = list_to_set (HStr <$> remove_dups (list_difference cur prev))).
  { apply set_eq. intros k.
    rewrite elem_of_difference, !elem_of_list_to_set, !list_elem_of_fmap.
    split.
    - intros [[t [-> Ht]] Hnot]. exists t. split; [reflexivity | ].
      apply elem_of_remove_dups, list_elem_of_difference. split; [exact Ht | ].
      intros Hin. apply Hnot. exists t. split; [reflexivity | exact Hin].
    - intros [t [-> Ht]].
      apply elem_of_remove_dups, list_elem_of_difference in Ht as [Hc Hp].
      split; [exists t; split; [reflexivity | exact Hc] | ].
      intros [t' [Heq Ht']]. apply (inj HStr) in Heq. subst t'. exact (Hp Ht'). }
  rewrite Hset, size_list_to_set, length_fmap; [reflexivity | ].
  apply NoDup_fmap_2; [apply _ | apply NoDup_remove_dups].
Qed.

Lemma new_titles_typed (prev cur : Snapshot) sentiment :
  sentiment ∈ sentiments ->
  new_titles (snapshot_dict prev) (snapshot_dict cur) sentiment
  = Ok (length (new_keys (category prev sentiment) (category cur sentiment))).
Proof.
  intros Hin. unfold new_titles.
  rewrite (snapshot_dict_get _ _ _ Hin).
  destruct (snapshot_dict_getitem prev) as (Hpb & Hpbe & Hpn).
  destruct (snapshot_dict_getitem cur) as (Hcb & Hcbe & Hcn).
  unfold sentiments in Hin. rewrite !elem_of_cons, elem_of_nil in Hin.
  destruct Hin as [-> | [-> | [-> | []]]].
  - rewrite Hpb, Hcb. cbn [mbind result_bind].
    rewrite !title_set_items. cbn [mbind result_bind].
    rewrite size_new_keys. reflexivity.
  - rewrite Hpbe, Hcbe. cbn [mbind result_bind].
    rewrite !title_set_items. cbn [mbind result_bind].
    rewrite size_new_keys. reflexivity.
  - rewrite Hpn, Hcn. cbn [mbind result_bind].
    rewrite !title_set_items. cbn [mbind result_bind].
    rewrite size_new_keys. reflexivity.
Qed.

Lemma count_new_items_typed (prev cur : Snapshot) :
  count_new_items (snapshot_dict prev) (snapshot_dict cur) sentiments 0
  = Ok (new_item_count prev cur).
Proof.
  unfold sentiments. cbn [count_new_items].
  rewrite !new_titles_typed by (unfold sentiments; set_solver).
  cbn [mbind result_bind]. reflexivity.
Qed.

Lemma should_send_update_typed (prev cur : Snapshot) :
  should_send_update_body (snapshot_dict prev) (snapshot_dict cur)
  = Ok (3 <=? new_item_count prev cur).
Proof.
  unfold should_send_update_body.
  change (truthy (snapshot_dict prev)) with true. cbn [negb].
  rewrite count_new_items_typed. reflexivity.
Qed.

Lemma new_keys_subset (prev cur : list NewsItem) :
  title <$> cur ⊆ title <$> prev -> new_keys prev cur = [].
Proof.
  intros Hsub. unfold new_keys.
  destruct (remove_dups _) as [ | t rest] eqn:Hkeys; [reflexivity | ].
  assert (Ht : t ∈ remove_dups
                 (list_difference (title <$> cur) (title <$> prev))).
  { rewrite Hkeys. apply elem_of_cons. left. reflexivity. }
  apply elem_of_remove_dups, list_elem_of_difference in Ht as [Hc Hp].
  destruct (Hp (Hsub _ Hc)).
Qed.

(** C2: with no previous state the detector answers true whatever the
    snapshot is; for a previous and a current snapshot it answers true
    exactly when the number of titles of a category of the current snapshot
    that the same category of the previous one lacks, summed over bullish,
    bearish and neutral, is at least 3; and a current snapshot that only
    drops items yields false. *)
Theorem should_send_update_contract :
  (forall news_data : pyval, should_send_update initial_state news_data = true)
  /\ (forall prev cur : Snapshot,
        should_send_update (snapshot_dict prev) (snapshot_dict cur)
        = (3 <=? new_item_count prev cur))
  /\ (forall prev cur : Snapshot,
        only_removals prev cur ->
        new_item_count prev cur = 0
        /\ should_send_update (snapshot_dict prev) (snapshot_dict cur) = false).
Proof.
  split; [ | split].
  - intros news_data. reflexivity.
  - intros prev cur. unfold should_send_update.
    rewrite should_send_update_typed. reflexivity.
  - intros prev cur (Hb & Hbe & Hn).
    assert (Hcount : new_item_count prev cur = 0).
    { unfold new_item_count. rewrite !new_keys_subset by assumption. reflexivity. }
    split; [exact Hcount | ].
    unfold should_send_update. rewrite should_send_update_typed, Hcount.
    reflexivity.
Qed.

Lemma should_send_update_contract_witness :
  only_removals four_bullish two_bullish
  /\ new_item_count four_bullish two_bullish = 0
  /\ should_send_update (snapshot_dict four_bullish) (snapshot_dict two_bullish)
     = false.
Proof.
  assert (Hrem : only_removals four_bullish two_bullish).
  { unfold only_removals. repeat split; intros t; cbn;
      rewrite ?elem_of_cons, ?elem_of_nil; tauto. }
  split; [exact Hrem | ].
  exact (proj2 (proj2 should_send_update_contract) four_bullish two_bullish Hrem).
Defined.

(** ** The composer on well-typed news *)

Section Composer.
Context `{PyRuntime}.

Lemma as_str_strs (strs : list pystr) : mapM as_str (PStr <$> strs) = Ok strs.
Proof.
  induction strs as [ | x strs IH]; [reflexivity | ].
  rewrite fmap_cons. cbn [mapM as_str mbind result_bind].
  rewrite IH. reflexivity.
Qed.

Lemma currencies_text_typed s it :
  currencies_text (item_dict s it) = Ok (shown_codes (currencies it)).
Proof.
  unfold currencies_text. rewrite item_dict_currencies.
  cbn [mbind result_bind].
  destruct (currencies it) as [ | code codes] eqn:Hcodes; [reflexivity | ].
  rewrite <- Hcodes.
  replace (truthy (PList (PStr <$> currencies it))) with true
    by (rewrite Hcodes; reflexivity).
  unfold py_join. cbn [py_iter mbind result_bind].
  rewrite as_str_strs. cbn [mbind result_bind].
  rewrite Hcodes. reflexivity.
Qed.

Lemma clean_title_str (t : pystr) :
  clean_title (PStr t) = Ok (PStr (shown_title t)).
Proof.
  unfold clean_title, shown_title. cbn [py_len mbind result_bind].
  destruct (100 <? length t); reflexivity.
Qed.

Lemma render_item_typed i s it :
  render_item i (item_dict s it) = Ok (entry_text i it).
Proof.
  unfold render_item.
  rewrite currencies_text_typed, item_dict_title, item_dict_url,
    item_dict_source.
  cbn [mbind result_bind]. rewrite clean_title_str. reflexivity.
Qed.

Lemma render_items_typed s (items : list NewsItem) :
  forall i message,
    render_items i (item_dict s <$> items) message
    = Ok (message ++ concat (entries_from i items)).
Proof.
  induction items as [ | it items IH]; intros i message.
  - cbn. rewrite app_nil_r. reflexivity.
  - rewrite fmap_cons. cbn [render_items]. rewrite render_item_typed.
    cbn [mbind result_bind]. rewrite IH. cbn [entries_from concat].
    rewrite <- app_assoc. reflexivity.
Qed.

Lemma render_block_typed block_header key news_data s items message :
  py_getitem news_data key = Ok (PList (item_dict s <$> items)) ->
  render_block block_header key news_data message
  = Ok (message ++ block_text block_header items).
Proof.
  intros Hget. unfold render_block. rewrite Hget. cbn [mbind result_bind].
  destruct items as [ | it items].
  - cbn. rewrite app_nil_r. reflexivity.
  - replace (truthy (PList (item_dict s <$> it :: items))) with true
      by reflexivity.
    cbn [py_slice_to mbind result_bind py_iter].
    rewrite <- fmap_take, render_items_typed.
    unfold block_text, shown_items. rewrite <- app_assoc. reflexivity.
Qed.

Lemma format_body_typed now (s : Snapshot) fud_analysis :
  format_body now (snapshot_dict s) fud_analysis
  = Ok (header ++ narrative_text fud_analysis
        ++ block_text bullish_header (bullish s)
        ++ block_text bearish_header (bearish s)
        ++ block_text neutral_header (neutral s)
        ++ footer now).
Proof.
  destruct (snapshot_dict_getitem s) as (Hb & Hbe & Hn).
  unfold format_body.
  rewrite (render_block_typed _ _ _ _ _ _ Hb). cbn [mbind result_bind].
  rewrite (render_block_typed _ _ _ _ _ _ Hbe). cbn [mbind result_bind].
  rewrite (render_block_typed _ _ _ _ _ _ Hn). cbn [mbind result_bind].
  f_equal. destruct fud_analysis as [ | ch rest].
  - cbn [truthy length Nat.eqb negb narrative_text].
    rewrite <- !app_assoc. reflexivity.
  - cbn [truthy length Nat.eqb negb narrative_text].
    rewrite <- !app_assoc. reflexivity.
Qed.

Lemma entries_from_length (items : list NewsItem) :
  forall i, length (entries_from i items) = length items.
Proof.
  induction items as [ | it items IH]; intros i; [reflexivity | ].
  cbn. rewrite IH. reflexivity.
Qed.

Lemma entries_from_lookup (items : list NewsItem) :
  forall i j it,
    items !! j = Some it ->
    entries_from i items !! j = Some (entry_text (i + j) it).
Proof.
  induction items as [ | x items IH]; intros i j it Hj; [discriminate | ].
  destruct j as [ | j].
  - cbn in Hj. injection Hj as ->. cbn. rewrite Nat.add_0_r. reflexivity.
  - change (entries_from i (x :: items) !! S j)
      with (entries_from (S i) items !! j).
    change ((x :: items) !! S j) with (items !! j) in Hj.
    rewrite (IH (S i) j it Hj).
    replace (S i + j) with (i + S j) by lia. reflexivity.
Qed.
End Composer.

(** C5 (as stated, refuted): a bullish item without currency codes is
    rendered, and the composed message does not contain the text
    [general market] anywhere. *)
Lemma no_codes_message_lacks_general_market :
  bullish no_codes_only = [item_c]
  /\ currencies item_c = []
  /\ contains (lit "general market")
       (@format_telegram_message plain_runtime (lit "2024-01-01 12:00")
          (snapshot_dict no_codes_only) [])
     = false.
Proof. repeat split; vm_compute; reflexivity. Qed.

(** C5 (amended): for an item whose sequence of currency codes is empty the
    composer renders no code list at all: the text appended after the link
    is empty, so the closing parenthesis of the link is followed directly by
    the line break. *)
Theorem empty_codes_render_nothing `{PyRuntime} (i : nat) (s : pystr)
    (it : NewsItem) :
  currencies it = [] ->
  currencies_text (item_dict s it) = Ok []
  /\ render_item i (item_dict s it)
     = Ok (str_of_nat i ++ lit ". [" ++ shown_title (title it) ++ lit "]("
             ++ url it ++ lit ")" ++ nl
           ++ lit "   *Source:* " ++ source it ++ nl ++ nl).
Proof.
  intros Hnone. split.
  - rewrite currencies_text_typed, Hnone. reflexivity.
  - rewrite render_item_typed. unfold entry_text. rewrite Hnone. reflexivity.
Qed.

Lemma empty_codes_render_nothing_witness :
  currencies item_c = []
  /\ currencies_text (item_dict (lit "bullish") item_c) = Ok []
  /\ @render_item plain_runtime 1 (item_dict (lit "bullish") item_c)
     = Ok (lit "1. [Exchange adds staking](https://cryptopanic.com/news/1)"
           ++ nl ++ lit "   *Source:* CoinDesk" ++ nl ++ nl).
Proof.
  split; [reflexivity | ].
  exact (@empty_codes_render_nothing plain_runtime 1 (lit "bullish") item_c
           eq_refl).
Defined.

(** C6: in the message composed for a snapshot every category block holds
    at most 5 entries however long the category is; the entries are the
    first items of the category in snapshot order, numbered from 1. *)
Theorem category_blocks_show_first_five `{PyRuntime} (now fud_analysis : pystr)
    (s : Snapshot) :
  format_telegram_message now (snapshot_dict s) fud_analysis
  = header ++ narrative_text fud_analysis
    ++ block_text bullish_header (bullish s)
    ++ block_text bearish_header (bearish s)
    ++ block_text neutral_header (neutral s)
    ++ footer now
  /\ forall (block_header sentiment : pystr) (items : list NewsItem),
       let entries := entries_from 1 (shown_items items) in
       block_text block_header items
       = match items with
         | [] => []
         | _ => block_header ++ concat entries
         end
       /\ length entries = Nat.min 5 (length items)
       /\ length entries <= 5
       /\ forall j it,
            j < 5 -> items !! j = Some it ->
            entries !! j = Some (entry_text (S j) it)
            /\ render_item (S j) (item_dict sentiment it)
               = Ok (entry_text (S j) it).
Proof.
  split.
  - unfold format_telegram_message. rewrite format_body_typed. reflexivity.
  - intros block_header sentiment items entries. subst entries.
    rewrite entries_from_length. unfold shown_items. rewrite length_take.
    split; [destruct items; reflexivity | ].
    split; [reflexivity | ].
    split; [lia | ].
    intros j it Hj Hit. split.
    + apply (entries_from_lookup _ 1 j it).
      rewrite lookup_take_lt by assumption. assumption.
    + apply render_item_typed.
Qed.

Lemma category_blocks_show_first_five_witness :
  length (bullish fifty_bullish) = 50
  /\ length (entries_from 1 (shown_items (bullish fifty_bullish))) = 5
  /\ entries_from 1 (shown_items (bullish fifty_bullish)) !! 4
     = Some (entry_text 5 item_a).
Proof.
  split; [reflexivity | ].
  destruct (@category_blocks_show_first_five plain_runtime [] [] fifty_bullish)
    as [_ Hblock].
  destruct (Hblock bullish_header (lit "bullish") (bullish fifty_bullish))
    as (_ & Hlen & _ & Hnth).
  split; [exact Hlen | ].
  apply (Hnth 4 item_a); [lia | reflexivity].
Defined.

(** C7: a title longer than 100 characters is rendered as its first 97
    characters followed by the three characters [...], 100 characters in
    all; a title of at most 100 characters is rendered unchanged. *)
Theorem title_truncation `{PyRuntime} (i : nat) (s : pystr) (it : NewsItem) :
  exists shown : pystr,
    clean_title (PStr (title it)) = Ok (PStr shown)
    /\ render_item i (item_dict s it)
       = Ok (str_of_nat i ++ lit ". [" ++ shown ++ lit "](" ++ url it
               ++ lit ")" ++ shown_codes (currencies it) ++ nl
             ++ lit "   *Source:* " ++ source it ++ nl ++ nl)
    /\ (100 < length (title it) ->
        shown = take 97 (title it) ++ lit "..."
        /\ length (take 97 (title it)) = 97
        /\ length (lit "...") = 3
        /\ length shown = 100)
    /\ (length (title it) <= 100 -> shown = title it).
Proof.
  exists (shown_title (title it)).
  split; [apply clean_title_str | ].
  split; [apply render_item_typed | ].
  unfold shown_title. split.
  - intros Hlong. apply Nat.ltb_lt in Hlong as Hb. rewrite Hb.
    assert (Hcut : length (take 97 (title it)) = 97)
      by (rewrite length_take; lia).
    split; [reflexivity | ].
    split; [exact Hcut | ].
    split; [reflexivity | ].
    rewrite length_app, Hcut. reflexivity.
  - intros Hshort. apply Nat.ltb_ge in Hshort as Hb. rewrite Hb. reflexivity.
Qed.

Lemma title_truncation_witness :
  length (title long_title_item) = 150
  /\ clean_title (PStr (title long_title_item))
     = Ok (PStr (replicate 97 120%N ++ lit "..."))
  /\ length (replicate 97 120%N ++ lit "...") = 100.
Proof.
  split; [reflexivity | ].
  destruct (@title_truncation plain_runtime 1 (lit "bullish") long_title_item)
    as (shown & Hclean & _ & Hlong & _).
  assert (Hlen : 100 < length (title long_title_item)) by (cbn; lia).
  destruct (Hlong Hlen) as (Hshown & _ & _ & Hhundred).
  rewrite Hclean, Hshown. split; [reflexivity | reflexivity].
Defined.

(** C8: the composer returns a text for every snapshot value and every
    narrative: when the formatting steps succeed it is the message, and when
    any of them raises, the exception is caught and the text is the error
    description. *)
Theorem format_never_raises `{PyRuntime} (now : pystr) (news_data : pyval)
    (fud_analysis : pystr) :
  (exists message,
      format_body now news_data fud_analysis = Ok message
      /\ format_telegram_message now news_data fud_analysis = message)
  \/ (exists e,
        format_body now news_data fud_analysis = Raise e
        /\ format_telegram_message now news_data fud_analysis
           = lit "Error formatting news: " ++ exn_str e).
Proof.
  unfold format_telegram_message.
  destruct (format_body now news_data fud_analysis) as [message | e].
  - left. exists message. split; reflexivity.
  - right. exists e. split; reflexivity.
Qed.

(** Both cases occur: a well-typed snapshot is formatted, a snapshot whose
    entry lacks its keys degrades to the error text. *)
Example format_degrades :
  @format_body plain_runtime [] odd_snapshot [] = Raise (KeyError (lit "currencies"))
  /\ @format_telegram_message plain_runtime [] odd_snapshot []
     = lit "Error formatting news: <error>"
  /\ @format_body plain_runtime [] (PInt 7) [] = Raise TypeError
  /\ @format_body plain_runtime [] (PDict []) [] = Raise (KeyError (lit "bullish")).
Proof. repeat split; vm_compute; reflexivity. Qed.

(** C10: when the comparison inside the change detector raises, the
    detector does not pass the exception on: it answers true. *)
Theorem should_send_update_on_error (state news_data : pyval) (e : exn) :
  should_send_update_body state news_data = Raise e ->
  should_send_update state news_data = true.
Proof.
  intros Hraise. unfold should_send_update. rewrite Hraise. reflexivity.
Qed.

Lemma should_send_update_on_error_witness :
  should_send_update_body (snapshot_dict two_bullish) odd_snapshot
  = Raise TypeError
  /\ should_send_update (snapshot_dict two_bullish) odd_snapshot = true.
Proof.
  assert (Hraise : should_send_update_body (snapshot_dict two_bullish)
                     odd_snapshot = Raise TypeError)
    by (vm_compute; reflexivity).
  split; [exact Hraise | ].
  exact (should_send_update_on_error _ _ _ Hraise).
Defined.

(** A malformed previous state is handled the same way. *)
Example malformed_state_sends :
  should_send_update_body (PInt 1) (snapshot_dict two_bullish)
  = Raise AttributeError
  /\ should_send_update (PInt 1) (snapshot_dict two_bullish) = true
  /\ should_send_update_body (news_dict [] [] [PNone]) (snapshot_dict two_bullish)
     = Raise TypeError.
Proof. repeat split; vm_compute; reflexivity. Qed.

(** ** The feed *)

Lemma fetch_shape (w : feed) :
  exists b be n, fetch_cryptopanic_api w = news_dict b be n.
Proof.
  unfold fetch_cryptopanic_api.
  destruct (api_key_set w); cbn [negb]; [ | eauto].
  destruct (bullish_reply w) as [ | s1 j1]; [eauto | ].
  destruct (bearish_reply w) as [ | s2 j2]; [eauto | ].
  destruct (neutral_reply w) as [ | s3 j3]; [eauto | ].
  destruct (process_reply _ s1 j1) as [b [e1 | ]]; [eauto | ].
  destruct (process_reply _ s2 j2) as [be [e2 | ]]; [eauto | ].
  destruct (process_reply _ s3 j3) as [n e3]. eauto.
Qed.

Lemma total_news_dict (b be n : list pyval) :
  total_news (news_dict b be n) = Ok (length b + (length be + (length n + 0))).
Proof. reflexivity. Qed.



Lemma codes_of_entry (codes : list pystr) :
  mapM (fun c => py_get c (lit "code") PNone)
       ((fun c => PDict [ (lit "code", PStr c) ]) <$> codes)
  = Ok (PStr <$> codes).
Proof.
  induction codes as [ | c codes IH]; [reflexivity | ].
  rewrite !fmap_cons. cbn [mapM].
  change (py_get (PDict [ (lit "code", PStr c) ]) (lit "code") PNone)
    with (Ok (PStr c)).
  cbn [mbind result_bind]. rewrite IH. reflexivity.
Qed.

Lemma news_item_of_entry sentiment (it : NewsItem) :
  news_item_of sentiment (feed_entry it) = Ok (item_dict sentiment it).
Proof.
  unfold news_item_of, feed_entry.
  repeat match goal with
  | |- context [py_get (PDict ?d) ?k ?v] =>
      let r := eval vm_compute in (dict_lookup k d) in
      match r with
      | Some ?x => change (py_get (PDict d) k v) with (Ok x)
      end; cbn [mbind result_bind]
  end.
  cbn [py_iter mbind result_bind]. rewrite codes_of_entry. reflexivity.
Qed.

Lemma append_items_entries sentiment (items : list NewsItem) :
  forall collected,
    append_items sentiment (feed_entry <$> items) collected
    = (collected ++ (item_dict sentiment <$> items), None).
Proof.
  induction items as [ | it items IH]; intros collected.
  - cbn. rewrite app_nil_r. reflexivity.
  - rewrite !fmap_cons. cbn [append_items]. rewrite news_item_of_entry, IH.
    rewrite <- app_assoc. reflexivity.
Qed.

Lemma process_ok_reply sentiment (items : list NewsItem) :
  process_reply sentiment 200
    (Ok (PDict [ (lit "results", PList (feed_entry <$> items)) ]))
  = (item_dict sentiment <$> items, None).
Proof.
  unfold process_reply. cbn [Z.eqb Pos.eqb mbind result_bind].
  change (py_get (PDict [ (lit "results", PList (feed_entry <$> items)) ])
            (lit "results") (PList []))
    with (Ok (PList (feed_entry <$> items))).
  cbn [mbind result_bind py_iter]. apply append_items_entries.
Qed.

Lemma fetch_feed_of (s : Snapshot) :
  fetch_cryptopanic_api (feed_of s) = snapshot_dict s.
Proof.
  unfold fetch_cryptopanic_api, feed_of, ok_reply.
  cbn [api_key_set negb bullish_reply bearish_reply neutral_reply].
  rewrite !process_ok_reply. reflexivity.
Qed.

Lemma total_news_snapshot (s : Snapshot) :
  exists total,
    total_news (snapshot_dict s) = Ok total
    /\ Nat.eqb total 0 = is_empty s.
Proof.
  eexists. split; [apply total_news_dict | ].
  rewrite !length_fmap. unfold is_empty.
  destruct (bullish s), (bearish s), (neutral s); reflexivity.
Qed.

(** ** The cycle *)

Lemma send_news_update_empty `{PyRuntime} (state : pyval) (c : collaborators) :
  fetch_cryptopanic_api (the_feed c) = news_dict [] [] [] ->
  send_news_update state c
  = {| last_sent_news := state; ended := NoNews; handed_over := [] |}.
Proof.
  intros Hempty. unfold send_news_update. rewrite Hempty. reflexivity.
Qed.

(** C3: when the fetched snapshot is empty in all three categories the
    cycle ends with the no-content skip: nothing is handed to delivery and
    the retained state is unchanged, whatever the state is, although on the
    first cycle the change detector would answer true for that same
    snapshot. *)
Theorem empty_snapshot_is_skipped `{PyRuntime} (state : pyval)
    (c : collaborators) :
  fetch_cryptopanic_api (the_feed c) = news_dict [] [] [] ->
  send_news_update state c
  = {| last_sent_news := state; ended := NoNews; handed_over := [] |}
  /\ should_send_update initial_state (fetch_cryptopanic_api (the_feed c))
     = true.
Proof.
  intros Hempty. split; [ | reflexivity].
  apply send_news_update_empty. exact Hempty.
Qed.

Lemma empty_snapshot_is_skipped_witness :
  @send_news_update plain_runtime initial_state
     (world (feed_of nothing) accept_all)
  = {| last_sent_news := initial_state; ended := NoNews; handed_over := [] |}
  /\ should_send_update initial_state
       (fetch_cryptopanic_api (the_feed (world (feed_of nothing) accept_all)))
     = true.
Proof.
  apply (@empty_snapshot_is_skipped plain_runtime). reflexivity.
Defined.


Example bearish_down_cycle :
  fetch_failed bearish_down = true
  /\ fetch_cryptopanic_api bearish_down = snapshot_dict three_bullish
  /\ ended (@send_news_update plain_runtime initial_state
              (world bearish_down accept_all)) = Sent
  /\ last_sent_news (@send_news_update plain_runtime initial_state
                       (world bearish_down accept_all))
     = snapshot_dict three_bullish.
Proof. repeat split; vm_compute; reflexivity. Qed.








(** The last steps of a cycle that has news to show and a detector that
    answers true: compose, deliver, commit on success. *)
Lemma send_news_update_delivers `{PyRuntime} (state : pyval)
    (c : collaborators) :
  (exists total, total_news (fetch_cryptopanic_api (the_feed c)) = Ok total
                 /\ Nat.eqb total 0 = false) ->
  should_send_update state (fetch_cryptopanic_api (the_feed c)) = true ->
  exists message,
    handed_over (send_news_update state c) = [message]
    /\ match send_message c message with
       | None =>
           ended (send_news_update state c) = Sent
           /\ last_sent_news (send_news_update state c)
              = fetch_cryptopanic_api (the_feed c)
       | Some e =>
           ended (send_news_update state c) = Failed e
           /\ last_sent_news (send_news_update state c) = state
       end.
Proof.
  intros (total & Htotal & Hsome) Hsend.
  unfold send_news_update. rewrite Htotal, Hsome, Hsend. cbn [negb].
  eexists. split.
  - destruct (send_message c _); reflexivity.
  - destruct (send_message c _); split; reflexivity.
Qed.

(** A cycle hands a message to delivery only when there is news and the
    detector answered true. *)
Lemma handed_over_inv `{PyRuntime} (state : pyval) (c : collaborators)
    (message : pystr) :
  handed_over (send_news_update state c) = [message] ->
  (exists total, total_news (fetch_cryptopanic_api (the_feed c)) = Ok total
                 /\ Nat.eqb total 0 = false)
  /\ should_send_update state (fetch_cryptopanic_api (the_feed c)) = true.
Proof.
  unfold send_news_update.
  destruct (total_news _) as [total | e]; [ | discriminate].
  destruct (Nat.eqb total 0) eqn:Hsome; [discriminate | ].
  destruct (should_send_update _ _) eqn:Hsend; [ | discriminate].
  intros _. split; [exists total; split; reflexivity || assumption | reflexivity].
Qed.

(** C1: the retained state is replaced by the current snapshot only in a
    cycle whose delivery succeeded; a cycle that ends otherwise keeps it,
    and when delivery fails the state is the one from before, so the next
    cycle over the same snapshot counts the same new items, the detector
    answers true again and a successful delivery then commits. *)
Theorem commit_only_after_delivery `{PyRuntime} (state : pyval)
    (c : collaborators) :
  let news_data := fetch_cryptopanic_api (the_feed c) in
  let r := send_news_update state c in
  (ended r = Sent ->
     last_sent_news r = news_data
     /\ exists message,
          handed_over r = [message] /\ send_message c message = None)
  /\ (ended r <> Sent -> last_sent_news r = state)
  /\ (forall message e,
        handed_over r = [message] ->
        send_message c message = Some e ->
        ended r = Failed e
        /\ last_sent_news r = state
        /\ forall c' : collaborators,
             fetch_cryptopanic_api (the_feed c') = news_data ->
             count_new_items (last_sent_news r) news_data sentiments 0
             = count_new_items state news_data sentiments 0
             /\ should_send_update (last_sent_news r)
                  (fetch_cryptopanic_api (the_feed c')) = true
             /\ ((forall m, send_message c' m = None) ->
                 ended (send_news_update (last_sent_news r) c') = Sent
                 /\ last_sent_news (send_news_update (last_sent_news r) c')
                    = news_data)).
Proof.
  intros news_data r. subst news_data r. split; [ | split].
  - unfold send_news_update.
    destruct (total_news _) as [total | e]; [ | discriminate].
    destruct (Nat.eqb total 0); [discriminate | ].
    destruct (should_send_update _ _); [ | discriminate].
    cbn [negb].
    destruct (send_message c _) eqn:Hsent; [discriminate | ].
    intros _. split; [reflexivity | ]. eexists. split; [reflexivity | exact Hsent].
  - unfold send_news_update.
    destruct (total_news _) as [total | e]; [ | reflexivity].
    destruct (Nat.eqb total 0); [reflexivity | ].
    destruct (should_send_update _ _); [ | reflexivity].
    cbn [negb].
    destruct (send_message c _); [reflexivity | ].
    intros Hne. destruct Hne. reflexivity.
  - intros message e Hhanded Hfail.
    destruct (handed_over_inv _ _ _ Hhanded) as [Htotal Hsend].
    destruct (send_news_update_delivers _ _ Htotal Hsend)
      as (message' & Hhanded' & Hcase).
    rewrite Hhanded in Hhanded'. injection Hhanded' as <-.
    rewrite Hfail in Hcase. destruct Hcase as [Hended Hstate].
    split; [exact Hended | ]. split; [exact Hstate | ].
    intros c' Hsame. rewrite Hstate, Hsame.
    split; [reflexivity | ]. split; [exact Hsend | ].
    intros Haccept.
    destruct (send_news_update_delivers state c') as (m & _ & Hcase').
    { rewrite Hsame. exact Htotal. }
    { rewrite Hsame. exact Hsend. }
    rewrite Haccept, Hsame in Hcase'. exact Hcase'.
Qed.

Lemma commit_only_after_delivery_witness :
  let failing := world (feed_of three_bullish) reject_all in
  let retry := world (feed_of three_bullish) accept_all in
  let r := @send_news_update plain_runtime initial_state failing in
  ended r = Failed (ExternalError (lit "Timed out"))
  /\ last_sent_news r = initial_state
  /\ ended (@send_news_update plain_runtime (last_sent_news r) retry) = Sent
  /\ last_sent_news (@send_news_update plain_runtime (last_sent_news r) retry)
     = snapshot_dict three_bullish.
Proof.
  intros failing retry r.
  destruct (@commit_only_after_delivery plain_runtime initial_state failing)
    as (_ & _ & Hfail).
  destruct (Hfail (@format_telegram_message plain_runtime
                     (lit "2024-01-01 12:00") (snapshot_dict three_bullish) [])
                  (ExternalError (lit "Timed out")))
    as (Hended & Hstate & Hnext); [vm_compute; reflexivity | reflexivity | ].
  split; [exact Hended | ]. split; [exact Hstate | ].
  destruct (Hnext retry) as (_ & _ & Hretry); [reflexivity | ].
  destruct Hretry as [Hsent Hcommit]; [reflexivity | ].
  split; [exact Hsent | ].
  exact (eq_trans Hcommit (fetch_feed_of three_bullish)).
Defined.

(** C9: two cycles in a row over a feed that returns the same non-empty
    snapshot, with delivery succeeding and the change significant for the
    first: the first ends as sent and commits the snapshot, the second ends
    as the not-significant skip without handing anything to delivery,
    because against the committed snapshot the new-item count is 0. *)
Theorem cycle_idempotent `{PyRuntime} (state : pyval) (s : Snapshot)
    (c1 c2 : collaborators) :
  fetch_cryptopanic_api (the_feed c1) = snapshot_dict s ->
  fetch_cryptopanic_api (the_feed c2) = snapshot_dict s ->
  is_empty s = false ->
  should_send_update state (snapshot_dict s) = true ->
  (forall m, send_message c1 m = None) ->
  let r1 := send_news_update state c1 in
  let r2 := send_news_update (last_sent_news r1) c2 in
  ended r1 = Sent
  /\ last_sent_news r1 = snapshot_dict s
  /\ count_new_items (last_sent_news r1) (snapshot_dict s) sentiments 0 = Ok 0
  /\ ended r2 = NotSignificant
  /\ handed_over r2 = []
  /\ last_sent_news r2 = snapshot_dict s.
Proof.
  intros Hfeed1 Hfeed2 Hsome Hsend Haccept r1 r2.
  destruct (total_news_snapshot s) as (total & Htotal & Hzero).
  rewrite Hsome in Hzero.
  destruct (send_news_update_delivers state c1) as (m & _ & Hcase).
  { rewrite Hfeed1. exists total. split; assumption. }
  { rewrite Hfeed1. exact Hsend. }
  rewrite Haccept, Hfeed1 in Hcase. destruct Hcase as [Hsent Hcommit].
  assert (Hcount : new_item_count s s = 0).
  { unfold new_item_count.
    rewrite !new_keys_subset by (intros t Ht; exact Ht). reflexivity. }
  assert (Hquiet : should_send_update (snapshot_dict s) (snapshot_dict s) = false).
  { unfold should_send_update.
    rewrite should_send_update_typed, Hcount. reflexivity. }
  subst r2. fold r1 in Hsent, Hcommit. rewrite Hcommit.
  split; [exact Hsent | ]. split; [reflexivity | ].
  split; [rewrite count_new_items_typed, Hcount; reflexivity | ].
  unfold send_news_update. rewrite Hfeed2, Htotal, Hzero, Hquiet.
  repeat split; reflexivity.
Qed.

Lemma cycle_idempotent_witness :
  let c := world (feed_of three_bullish) accept_all in
  let r1 := @send_news_update plain_runtime initial_state c in
  let r2 := @send_news_update plain_runtime (last_sent_news r1) c in
  ended r1 = Sent /\ ended r2 = NotSignificant /\ handed_over r2 = [].
Proof.
  intros c r1 r2.
  destruct (@cycle_idempotent plain_runtime initial_state three_bullish c c)
    as (Hfirst & _ & _ & Hsecond & Hnone & _);
    [apply fetch_feed_of | apply fetch_feed_of | reflexivity | reflexivity
    | reflexivity | ].
  split; [exact Hfirst | ]. split; [exact Hsecond | exact Hnone].
Defined.

(** * Further properties of the code *)

(** ** The feed *)

(** X1: a feed whose three replies have status 200 and carry well-typed
    entries is fetched as exactly the snapshot of those entries, category by
    category and in the order of the replies; its size is the number of
    entries. *)
Theorem fetch_round_trip (s : Snapshot) :
  fetch_cryptopanic_api (feed_of s) = snapshot_dict s
  /\ total_news (fetch_cryptopanic_api (feed_of s))
     = Ok (length (bullish s) + (length (bearish s) + (length (neutral s) + 0))).
Proof.
  rewrite fetch_feed_of. split; [reflexivity | ].
  unfold snapshot_dict. rewrite total_news_dict, !length_fmap. reflexivity.
Qed.

Lemma news_item_of_tagged sentiment item entry :
  news_item_of sentiment item = Ok entry -> tagged_entry sentiment entry.
Proof.
  unfold news_item_of.
  destruct (py_get item (lit "title") _) as [t | ]; [ | discriminate].
  cbn [mbind result_bind].
  destruct (py_get item (lit "url") _) as [u | ]; [ | discriminate].
  cbn [mbind result_bind].
  destruct (py_get item (lit "source") _) as [src0 | ]; [ | discriminate].
  cbn [mbind result_bind].
  destruct (py_get src0 (lit "title") _) as [src | ]; [ | discriminate].
  cbn [mbind result_bind].
  destruct (py_get item (lit "published_at") _) as [p | ]; [ | discriminate].
  cbn [mbind result_bind].
  destruct (py_get item (lit "currencies") _) as [cur | ]; [ | discriminate].
  cbn [mbind result_bind].
  destruct (py_iter cur) as [cs | ]; [ | discriminate].
  cbn [mbind result_bind].
  destruct (mapM _ cs) as [codes | ]; [ | discriminate].
  cbn [mbind result_bind]. intros Hentry. injection Hentry as <-.
  exists t, u, src, p, codes. reflexivity.
Qed.

Lemma append_items_tagged sentiment (results : list pyval) :
  forall collected,
    Forall (tagged_entry sentiment) collected ->
    Forall (tagged_entry sentiment)
           (fst (append_items sentiment results collected)).
Proof.
  induction results as [ | item results IH]; intros collected Hall.
  - exact Hall.
  - cbn [append_items].
    destruct (news_item_of sentiment item) as [entry | e] eqn:Hitem.
    + apply IH. apply Forall_app. split; [exact Hall | ].
      apply Forall_cons. split; [ | apply Forall_nil; exact I].
      exact (news_item_of_tagged _ _ _ Hitem).
    + exact Hall.
Qed.

Lemma process_reply_tagged sentiment status_code json :
  Forall (tagged_entry sentiment)
         (fst (process_reply sentiment status_code json)).
Proof.
  unfold process_reply.
  destruct (Z.eqb status_code 200); [ | apply Forall_nil; exact I].
  destruct (_ ≫= _) as [items | e].
  - apply append_items_tagged. apply Forall_nil. exact I.
  - apply Forall_nil. exact I.
Qed.

(** X2: whatever the three requests return, every entry of the fetched
    snapshot is a dictionary with the six keys title, url, source,
    published_at, currencies, sentiment, its currencies are a list, and its
    sentiment is the name of the category it is filed under. *)
Theorem fetched_entries_are_tagged (w : feed) :
  exists b be n,
    fetch_cryptopanic_api w = news_dict b be n
    /\ Forall (tagged_entry (lit "bullish")) b
    /\ Forall (tagged_entry (lit "bearish")) be
    /\ Forall (tagged_entry (lit "neutral")) n.
Proof.
  assert (Hnil : forall s, Forall (tagged_entry s) []).
  { intros s. apply Forall_nil. exact I. }
  unfold fetch_cryptopanic_api.
  destruct (api_key_set w); cbn [negb]; [ | exists [], [], []; auto].
  destruct (bullish_reply w) as [ | s1 j1]; [exists [], [], []; auto | ].
  destruct (bearish_reply w) as [ | s2 j2]; [exists [], [], []; auto | ].
  destruct (neutral_reply w) as [ | s3 j3]; [exists [], [], []; auto | ].
  pose proof (process_reply_tagged (lit "bullish") s1 j1) as H1.
  pose proof (process_reply_tagged (lit "bearish") s2 j2) as H2.
  pose proof (process_reply_tagged (lit "neutral") s3 j3) as H3.
  destruct (process_reply _ s1 j1) as [b [e1 | ]]; cbn [fst] in H1;
    [exists b, [], []; auto | ].
  destruct (process_reply _ s2 j2) as [be [e2 | ]]; cbn [fst] in H2;
    [exists b, be, []; auto | ].
  destruct (process_reply _ s3 j3) as [n e3]; cbn [fst] in H3.
  exists b, be, n. auto.
Qed.

(** X3: an entry of the feed that has none of the keys title, url, source,
    published_at, currencies is stored with empty title, url and
    publication time, the source name "Unknown" and no currency codes. *)
Theorem missing_fields_get_defaults (sentiment : pystr)
    (d : list (pystr * pyval)) :
  dict_lookup (lit "title") d = None ->
  dict_lookup (lit "url") d = None ->
  dict_lookup (lit "source") d = None ->
  dict_lookup (lit "published_at") d = None ->
  dict_lookup (lit "currencies") d = None ->
  news_item_of sentiment (PDict d)
  = Ok (PDict [ (lit "title", PStr []);
                (lit "url", PStr []);
                (lit "source", PStr (lit "Unknown"));
                (lit "published_at", PStr []);
                (lit "currencies", PList []);
                (lit "sentiment", PStr sentiment) ]).
Proof.
  intros Ht Hu Hs Hp Hc. unfold news_item_of, py_get.
  rewrite Ht, Hu, Hs, Hp, Hc. reflexivity.
Qed.

Lemma missing_fields_get_defaults_witness :
  news_item_of (lit "neutral") (PDict [ (lit "id", PInt 7%Z) ])
  = Ok (item_dict (lit "neutral")
          {| title := []; url := []; source := lit "Unknown";
             published_at := []; currencies := [] |}).
Proof.
  apply (missing_fields_get_defaults (lit "neutral") [ (lit "id", PInt 7%Z) ]);
    reflexivity.
Defined.

Lemma append_items_stops sentiment (before : list NewsItem) (bad : pyval)
    (after : list pyval) (e : exn) :
  news_item_of sentiment bad = Raise e ->
  forall collected,
    append_items sentiment ((feed_entry <$> before) ++ bad :: after) collected
    = (collected ++ (item_dict sentiment <$> before), Some e).
Proof.
  intros Hbad. induction before as [ | it before IH]; intros collected.
  - cbn [fmap list_fmap app append_items]. rewrite Hbad, app_nil_r. reflexivity.
  - rewrite fmap_cons. cbn [app append_items].
    rewrite news_item_of_entry, IH, fmap_cons, <- app_assoc. reflexivity.
Qed.

(** X4: when building the entry for one bullish result raises (for
    instance its source is null), the fetch stops there: the bullish
    entries built before it are kept, the results after it are dropped, and
    the bearish and neutral replies are not processed at all. *)
Theorem bad_entry_stops_fetch (before : list NewsItem) (bad : pyval)
    (after : list pyval) (e : exn) (s2 s3 : Z) (j2 j3 : result pyval) :
  news_item_of (lit "bullish") bad = Raise e ->
  fetch_cryptopanic_api
    {| api_key_set := true;
       bullish_reply :=
         Response 200
           (Ok (PDict [ (lit "results",
                         PList ((feed_entry <$> before) ++ bad :: after)) ]));
       bearish_reply := Response s2 j2;
       neutral_reply := Response s3 j3 |}
  = news_dict (item_dict (lit "bullish") <$> before) [] [].
Proof.
  intros Hbad. unfold fetch_cryptopanic_api.
  cbn [api_key_set negb bullish_reply bearish_reply neutral_reply].
  unfold process_reply at 1. cbn [Z.eqb Pos.eqb mbind result_bind].
  change (py_get (PDict [ (lit "results",
                           PList ((feed_entry <$> before) ++ bad :: after)) ])
            (lit "results") (PList []))
    with (Ok (PList ((feed_entry <$> before) ++ bad :: after))).
  cbn [mbind result_bind py_iter].
  rewrite (append_items_stops _ _ _ _ _ Hbad). reflexivity.
Qed.

Lemma bad_entry_stops_fetch_witness :
  news_item_of (lit "bullish") null_source_entry = Raise AttributeError
  /\ fetch_cryptopanic_api results_with_broken_entry
     = news_dict (item_dict (lit "bullish") <$> [item_a; item_b]) [] [].
Proof.
  assert (Hbad : news_item_of (lit "bullish") null_source_entry
                 = Raise AttributeError) by reflexivity.
  split; [exact Hbad | ].
  exact (bad_entry_stops_fetch [item_a; item_b] null_source_entry
           [feed_entry item_c] AttributeError 200
           200 _ _ Hbad).
Defined.

(** X5: a reply with status 200 whose JSON object has no ["results"] key
    contributes no entry and raises nothing, so the other two categories
    are still collected. *)
Theorem reply_without_results (d : list (pystr * pyval))
    (bearish_items neutral_items : list NewsItem) :
  dict_lookup (lit "results") d = None ->
  fetch_cryptopanic_api
    {| api_key_set := true;
       bullish_reply := Response 200 (Ok (PDict d));
       bearish_reply := ok_reply bearish_items;
       neutral_reply := ok_reply neutral_items |}
  = snapshot_dict {| bullish := []; bearish := bearish_items;
                     neutral := neutral_items |}.
Proof.
  intros Hnone. unfold fetch_cryptopanic_api, ok_reply.
  cbn [api_key_set negb bullish_reply bearish_reply neutral_reply].
  rewrite !process_ok_reply.
  unfold process_reply, py_get. cbn [Z.eqb Pos.eqb mbind result_bind].
  rewrite Hnone. reflexivity.
Qed.

Lemma reply_without_results_witness :
  fetch_cryptopanic_api
    {| api_key_set := true;
       bullish_reply :=
         Response 200 (Ok (PDict [ (lit "count", PInt 0%Z) ]));
       bearish_reply := ok_reply [item_a];
       neutral_reply := ok_reply [] |}
  = snapshot_dict {| bullish := []; bearish := [item_a]; neutral := [] |}.
Proof.
  apply (reply_without_results [ (lit "count", PInt 0%Z) ] [item_a] []).
  reflexivity.
Defined.

(** ** The change detector *)

Lemma new_keys_size (prev cur : list NewsItem) :
  length (new_keys prev cur)
  = size ((list_to_set (title <$> cur) : gset pystr)
          ∖ list_to_set (title <$> prev)).
Proof.
  unfold new_keys.
  rewrite <- (size_list_to_set (C := gset pystr)) by apply NoDup_remove_dups.
  f_equal. apply set_eq. intros t.
  rewrite elem_of_difference, !elem_of_list_to_set, elem_of_remove_dups,
    list_elem_of_difference.
  reflexivity.
Qed.

Lemma same_elements_set (a b : list pystr) :
  same_elements a b -> (list_to_set a : gset pystr) = list_to_set b.
Proof.
  intros Hsame. apply set_eq. intros t.
  rewrite !elem_of_list_to_set. apply Hsame.
Qed.

Lemma list_difference_nil (l : list pystr) : list_difference l [] = l.
Proof.
  induction l as [ | x l IH]; [reflexivity | ].
  cbn [list_difference]. destruct (decide_rel elem_of x []) as [Hin | _].
  - apply elem_of_nil in Hin. destruct Hin.
  - rewrite IH. reflexivity.
Qed.


(** X6: the detector looks at titles only, as sets: two current snapshots
    (and two previous ones) that show the same titles in each category give
    the same answer, whatever the order of the items, their repetitions and
    their other fields. *)
Theorem detector_depends_on_title_sets (prev prev' cur cur' : Snapshot) :
  same_titles prev prev' ->
  same_titles cur cur' ->
  should_send_update (snapshot_dict prev) (snapshot_dict cur)
  = should_send_update (snapshot_dict prev') (snapshot_dict cur').
Proof.
  intros (Hpb & Hpbe & Hpn) (Hcb & Hcbe & Hcn).
  unfold should_send_update. rewrite !should_send_update_typed.
  cbn [try_except]. unfold new_item_count. rewrite !new_keys_size.
  rewrite (same_elements_set _ _ Hpb), (same_elements_set _ _ Hpbe),
    (same_elements_set _ _ Hpn), (same_elements_set _ _ Hcb),
    (same_elements_set _ _ Hcbe), (same_elements_set _ _ Hcn).
  reflexivity.
Qed.

Lemma detector_depends_on_title_sets_witness :
  should_send_update (snapshot_dict two_bullish) (snapshot_dict three_bullish)
  = should_send_update (snapshot_dict two_bullish)
      (snapshot_dict three_bullish_reordered).
Proof.
  apply detector_depends_on_title_sets.
  - repeat split; intros Ht; exact Ht.
  - unfold same_titles, same_elements.
    repeat split; cbn; rewrite ?elem_of_cons, ?elem_of_nil; tauto.
Defined.

Lemma new_keys_mono (prev cur cur' : list NewsItem) :
  title <$> cur ⊆ title <$> cur' ->
  length (new_keys prev cur) <= length (new_keys prev cur').
Proof.
  intros Hsub. rewrite !new_keys_size. apply subseteq_size. intros t.
  rewrite !elem_of_difference, !elem_of_list_to_set.
  intros [Hin Hnot]. split; [exact (Hsub _ Hin) | exact Hnot].
Qed.

(** X7: items added to the current snapshot never silence the detector:
    if it answers true for a snapshot, it answers true for every snapshot
    that shows at least the same titles in each category. *)
Theorem detector_is_monotone (prev cur cur' : Snapshot) :
  titles_included cur cur' ->
  should_send_update (snapshot_dict prev) (snapshot_dict cur) = true ->
  should_send_update (snapshot_dict prev) (snapshot_dict cur') = true.
Proof.
  intros (Hb & Hbe & Hn). unfold should_send_update.
  rewrite !should_send_update_typed. cbn [try_except].
  intros Hsig. apply Nat.leb_le in Hsig. apply Nat.leb_le.
  unfold new_item_count in Hsig |- *.
  pose proof (new_keys_mono (bullish prev) _ _ Hb).
  pose proof (new_keys_mono (bearish prev) _ _ Hbe).
  pose proof (new_keys_mono (neutral prev) _ _ Hn).
  lia.
Qed.

Lemma detector_is_monotone_witness :
  should_send_update (snapshot_dict nothing) (snapshot_dict three_bullish)
  = true
  /\ should_send_update (snapshot_dict nothing) (snapshot_dict four_bullish)
     = true.
Proof.
  assert (Hthree : should_send_update (snapshot_dict nothing)
                     (snapshot_dict three_bullish) = true)
    by (vm_compute; reflexivity).
  split; [exact Hthree | ].
  apply (detector_is_monotone nothing three_bullish four_bullish);
    [ | exact Hthree].
  unfold titles_included. repeat split; intros t; cbn;
    rewrite ?elem_of_cons, ?elem_of_nil; tauto.
Defined.

(** X8: categories are compared one by one, so items that only moved from
    one category to another count as new: when the previous bullish items
    come back as the bearish ones, the detector answers true exactly when
    they carry at least 3 distinct titles. *)
Theorem moved_items_count_as_new (items : list NewsItem) :
  should_send_update
    (snapshot_dict {| bullish := items; bearish := []; neutral := [] |})
    (snapshot_dict {| bullish := []; bearish := items; neutral := [] |})
  = (3 <=? length (remove_dups (title <$> items))).
Proof.
  unfold should_send_update. rewrite should_send_update_typed.
  cbn [try_except]. unfold new_item_count, new_keys.
  cbn [bullish bearish neutral fmap list_fmap].
  rewrite list_difference_nil. cbn [list_difference remove_dups length].
  rewrite Nat.add_0_r. reflexivity.
Qed.

(** X9: a previous state that is a non-empty dictionary without the three
    category keys is read as having no previous titles: every distinct
    title of the current snapshot counts as new. *)
Theorem state_without_categories (d : list (pystr * pyval)) (cur : Snapshot) :
  d <> [] ->
  (forall sentiment, sentiment ∈ sentiments -> dict_lookup sentiment d = None) ->
  should_send_update_body (PDict d) (snapshot_dict cur)
  = Ok (3 <=? distinct_titles cur).
Proof.
  intros Hsome Hnone.
  assert (Hstep : forall sentiment,
            sentiment ∈ sentiments ->
            new_titles (PDict d) (snapshot_dict cur) sentiment
            = Ok (length (remove_dups (title <$> category cur sentiment)))).
  { intros sentiment Hin. unfold new_titles, py_get.
    rewrite (Hnone _ Hin).
    destruct (snapshot_dict_getitem cur) as (Hcb & Hcbe & Hcn).
    unfold sentiments in Hin. rewrite !elem_of_cons, elem_of_nil in Hin.
    destruct Hin as [-> | [-> | [-> | []]]].
    - rewrite Hcb. cbn [mbind result_bind]. rewrite title_set_items.
      cbn [mbind result_bind].
      change (title_set (PList [])) with (title_set (PList (item_dict [] <$> []))).
      rewrite title_set_items. cbn [mbind result_bind].
      rewrite size_new_keys, list_difference_nil. reflexivity.
    - rewrite Hcbe. cbn [mbind result_bind]. rewrite title_set_items.
      cbn [mbind result_bind].
      change (title_set (PList [])) with (title_set (PList (item_dict [] <$> []))).
      rewrite title_set_items. cbn [mbind result_bind].
      rewrite size_new_keys, list_difference_nil. reflexivity.
    - rewrite Hcn. cbn [mbind result_bind]. rewrite title_set_items.
      cbn [mbind result_bind].
      change (title_set (PList [])) with (title_set (PList (item_dict [] <$> []))).
      rewrite title_set_items. cbn [mbind result_bind].
      rewrite size_new_keys, list_difference_nil. reflexivity. }
  unfold should_send_update_body.
  replace (truthy (PDict d)) with true by (destruct d; [congruence | reflexivity]).
  cbn [negb]. unfold sentiments. cbn [count_new_items].
  rewrite !Hstep by (unfold sentiments; set_solver).
  cbn [mbind result_bind]. reflexivity.
Qed.

Lemma state_without_categories_witness :
  should_send_update_body (PDict [ (lit "version", PInt 1%Z) ])
    (snapshot_dict two_bullish)
  = Ok false.
Proof.
  apply (state_without_categories [ (lit "version", PInt 1%Z) ] two_bullish).
  - discriminate.
  - intros sentiment Hin. unfold sentiments in Hin.
    rewrite !elem_of_cons, elem_of_nil in Hin.
    destruct Hin as [-> | [-> | [-> | []]]]; reflexivity.
Defined.



(** ** The composer *)

Lemma render_block_take `{PyRuntime} (block_header key : pystr)
    (b be n : list pyval) (message : pystr) :
  key ∈ sentiments ->
  render_block block_header key (news_dict (take 5 b) (take 5 be) (take 5 n))
    message
  = render_block block_header key (news_dict b be n) message.
Proof.
  assert (Hcut : forall l : list pyval,
            (block ← Ok (PList (take 5 l));
             if truthy block
             then top ← py_slice_to 5 block;
                  items ← py_iter top;
                  render_items 1 items (message ++ block_header)
             else Ok message)
            = (block ← Ok (PList l);
               if truthy block
               then top ← py_slice_to 5 block;
                    items ← py_iter top;
                    render_items 1 items (message ++ block_header)
               else Ok message)).
  { intros [ | x l]; [reflexivity | ].
    cbn [mbind result_bind py_slice_to py_iter].
    rewrite take_take. reflexivity. }
  unfold sentiments. rewrite !elem_of_cons, elem_of_nil.
  intros [-> | [-> | [-> | []]]]; unfold render_block.
  - change (py_getitem (news_dict (take 5 b) (take 5 be) (take 5 n))
              (lit "bullish")) with (Ok (PList (take 5 b))).
    change (py_getitem (news_dict b be n) (lit "bullish")) with (Ok (PList b)).
    apply Hcut.
  - change (py_getitem (news_dict (take 5 b) (take 5 be) (take 5 n))
              (lit "bearish")) with (Ok (PList (take 5 be))).
    change (py_getitem (news_dict b be n) (lit "bearish")) with (Ok (PList be)).
    apply Hcut.
  - change (py_getitem (news_dict (take 5 b) (take 5 be) (take 5 n))
              (lit "neutral")) with (Ok (PList (take 5 n))).
    change (py_getitem (news_dict b be n) (lit "neutral")) with (Ok (PList n)).
    apply Hcut.
Qed.

(** X11: the composer reads only the first five entries of each category:
    for arbitrary lists of values, the composed text is the one obtained
    from the lists cut to five, so an entry beyond the fifth, even a
    malformed one, never changes the message nor makes composing fail. *)
Theorem format_reads_first_five `{PyRuntime} (now : pystr)
    (b be n : list pyval) (fud_analysis : pystr) :
  format_body now (news_dict b be n) fud_analysis
  = format_body now (news_dict (take 5 b) (take 5 be) (take 5 n)) fud_analysis
  /\ format_telegram_message now (news_dict b be n) fud_analysis
     = format_telegram_message now
         (news_dict (take 5 b) (take 5 be) (take 5 n)) fud_analysis.
Proof.
  assert (Hbody : format_body now (news_dict b be n) fud_analysis
                  = format_body now
                      (news_dict (take 5 b) (take 5 be) (take 5 n))
                      fud_analysis).
  { unfold format_body.
    rewrite (render_block_take bullish_header (lit "bullish") b be n)
      by (unfold sentiments; set_solver).
    destruct (render_block bullish_header _ _ _) as [m1 | e1]; [ | reflexivity].
    cbn [mbind result_bind].
    rewrite (render_block_take bearish_header (lit "bearish") b be n)
      by (unfold sentiments; set_solver).
    destruct (render_block bearish_header _ _ _) as [m2 | e2]; [ | reflexivity].
    cbn [mbind result_bind].
    rewrite (render_block_take neutral_header (lit "neutral") b be n)
      by (unfold sentiments; set_solver).
    reflexivity. }
  split; [exact Hbody | ].
  unfold format_telegram_message. rewrite Hbody. reflexivity.
Qed.

(** X12: whatever the title text, the title shown has at most 100
    characters and agrees with the title on its first 97 characters. *)
Theorem shown_title_bound (t : pystr) :
  exists shown,
    clean_title (PStr t) = Ok (PStr shown)
    /\ length shown <= 100
    /\ take 97 shown = take 97 t.
Proof.
  exists (shown_title t). unfold clean_title, shown_title.
  cbn [py_len mbind result_bind].
  destruct (100 <? length t) eqn:Hlong.
  - apply Nat.ltb_lt in Hlong.
    assert (Hcut : length (take 97 t) = 97) by (rewrite length_take; lia).
    split; [reflexivity | ]. split.
    + rewrite length_app, Hcut. cbn. lia.
    + rewrite take_app_le by lia. apply take_take.
  - apply Nat.ltb_ge in Hlong. split; [reflexivity | ].
    split; [exact Hlong | reflexivity].
Qed.

(** X13: when the title of the first entry of the first non-empty block
    has no length (it is null, a number or a boolean), composing fails at
    that point and the composer returns the error text instead of a
    message. *)
Theorem unsized_title_degrades `{PyRuntime} (now : pystr)
    (item t : pyval) (rest be n : list pyval) (fud_analysis codes : pystr)
    (e : exn) :
  currencies_text item = Ok codes ->
  py_getitem item (lit "title") = Ok t ->
  py_len t = Raise e ->
  format_body now (news_dict (item :: rest) be n) fud_analysis = Raise e
  /\ format_telegram_message now (news_dict (item :: rest) be n) fud_analysis
     = lit "Error formatting news: " ++ exn_str e.
Proof.
  intros Hcodes Htitle Hlen.
  assert (Hbody : format_body now (news_dict (item :: rest) be n) fud_analysis
                  = Raise e).
  { unfold format_body, render_block.
    change (py_getitem (news_dict (item :: rest) be n) (lit "bullish"))
      with (Ok (PList (item :: rest))).
    cbn [mbind result_bind truthy length Nat.eqb negb py_slice_to py_iter
         take render_items].
    unfold render_item. rewrite Hcodes. cbn [mbind result_bind].
    rewrite Htitle. cbn [mbind result_bind].
    unfold clean_title. rewrite Hlen. reflexivity. }
  split; [exact Hbody | ].
  unfold format_telegram_message. rewrite Hbody. reflexivity.
Qed.

Lemma unsized_title_degrades_witness :
  @format_telegram_message plain_runtime []
    (news_dict [PDict [ (lit "title", PNone); (lit "currencies", PList []) ]]
               [] [])
    []
  = lit "Error formatting news: <error>".
Proof.
  exact (proj2 (@unsized_title_degrades plain_runtime []
                  (PDict [ (lit "title", PNone); (lit "currencies", PList []) ])
                  PNone [] [] [] [] [] TypeError eq_refl eq_refl eq_refl)).
Defined.

(** ** The narrative request *)

Section Narrative.
Context `{PyRuntime}.

Lemma summary_line_typed i s it :
  summary_line i (item_dict s it) = Ok (summary_entry i it).
Proof.
  unfold summary_line. rewrite item_dict_currencies, item_dict_title.
  cbn [mbind result_bind]. unfold summary_entry.
  destruct (currencies it) as [ | code codes] eqn:Hcodes; [reflexivity | ].
  replace (truthy (PList (PStr <$> code :: codes))) with true by reflexivity.
  unfold py_join. cbn [py_iter mbind result_bind].
  rewrite as_str_strs. reflexivity.
Qed.

Lemma summary_items_typed s (items : list NewsItem) :
  forall i news_summary,
    summary_items i (item_dict s <$> items) news_summary
    = Ok (news_summary ++ concat (summary_entries i items)).
Proof.
  induction items as [ | it items IH]; intros i news_summary.
  - cbn. rewrite app_nil_r. reflexivity.
  - rewrite fmap_cons. cbn [summary_items]. rewrite summary_line_typed.
    cbn [mbind result_bind]. rewrite IH. cbn [summary_entries concat].
    rewrite <- app_assoc. reflexivity.
Qed.

Lemma summary_block_typed heading key cap news_data s items news_summary :
  py_getitem news_data key = Ok (PList (item_dict s <$> items)) ->
  summary_block heading key cap news_data news_summary
  = Ok (news_summary ++ summary_text heading cap items).
Proof.
  intros Hget. unfold summary_block. rewrite Hget. cbn [mbind result_bind].
  destruct items as [ | it items].
  - cbn. rewrite app_nil_r. reflexivity.
  - replace (truthy (PList (item_dict s <$> it :: items))) with true
      by reflexivity.
    cbn [py_slice_to mbind result_bind py_iter].
    rewrite <- fmap_take, summary_items_typed.
    unfold summary_text. rewrite <- app_assoc. reflexivity.
Qed.

Lemma build_news_summary_typed (s : Snapshot) :
  build_news_summary (snapshot_dict s)
  = Ok (summary_text bullish_heading 3 (bullish s)
        ++ summary_text bearish_heading 3 (bearish s)
        ++ summary_text neutral_heading 2 (neutral s)).
Proof.
  destruct (snapshot_dict_getitem s) as (Hb & Hbe & Hn).
  unfold build_news_summary.
  rewrite (summary_block_typed _ _ _ _ _ _ _ Hb). cbn [mbind result_bind].
  rewrite (summary_block_typed _ _ _ _ _ _ _ Hbe). cbn [mbind result_bind].
  rewrite (summary_block_typed _ _ _ _ _ _ _ Hn).
  rewrite app_nil_l, <- app_assoc. reflexivity.
Qed.

Lemma summary_entries_length (items : list NewsItem) :
  forall i, length (summary_entries i items) = length items.
Proof.
  induction items as [ | it items IH]; intros i; [reflexivity | ].
  cbn. rewrite IH. reflexivity.
Qed.

Lemma summary_entries_lookup (items : list NewsItem) :
  forall i j it,
    items !! j = Some it ->
    summary_entries i items !! j = Some (summary_entry (i + j) it).
Proof.
  induction items as [ | x items IH]; intros i j it Hj; [discriminate | ].
  destruct j as [ | j].
  - cbn in Hj. injection Hj as ->. cbn. rewrite Nat.add_0_r. reflexivity.
  - change (summary_entries i (x :: items) !! S j)
      with (summary_entries (S i) items !! j).
    change ((x :: items) !! S j) with (items !! j) in Hj.
    rewrite (IH (S i) j it Hj).
    replace (S i + j) with (i + S j) by lia. reflexivity.
Qed.

Lemma fud_call_typed (chat : pystr -> pystr -> result pyval) (s : Snapshot) :
  fud_call chat (snapshot_dict s)
  = (content ← chat system_message
                 (user_message (length (bullish s)) (length (bearish s))
                    (length (neutral s))
                    (summary_text bullish_heading 3 (bullish s)
                     ++ summary_text bearish_heading 3 (bearish s)
                     ++ summary_text neutral_heading 2 (neutral s)));
     py_strip content).
Proof.
  destruct (snapshot_dict_getitem s) as (Hb & Hbe & Hn).
  unfold fud_call. rewrite Hb, Hbe, Hn. cbn [mbind result_bind py_len].
  rewrite build_news_summary_typed. cbn [mbind result_bind].
  rewrite !length_fmap. reflexivity.
Qed.

Lemma lstrip_spaces (text : pystr) :
  Forall (fun c => is_space c = true) text -> lstrip text = [].
Proof.
  induction 1 as [ | c text Hc _ IH]; [reflexivity | ].
  cbn [lstrip]. rewrite Hc. exact IH.
Qed.

End Narrative.

(** X14: in the news summary sent to the narrative generator an item
    without currency codes is listed with the words [general market] in the
    parentheses, and its title is given in full, however long. *)
Theorem summary_uses_general_market `{PyRuntime} (i : nat) (s : pystr)
    (it : NewsItem) :
  currencies it = [] ->
  summary_line i (item_dict s it)
  = Ok (str_of_nat i ++ lit ". " ++ title it ++ lit " (general market)" ++ nl).
Proof.
  intros Hnone. rewrite summary_line_typed. unfold summary_entry.
  rewrite Hnone. reflexivity.
Qed.

Lemma summary_uses_general_market_witness :
  @summary_line plain_runtime 2 (item_dict (lit "bullish") item_c)
  = Ok (lit "2. Exchange adds staking (general market)" ++ nl).
Proof.
  exact (@summary_uses_general_market plain_runtime 2 (lit "bullish") item_c
           eq_refl).
Defined.

(** X15: the news summary lists at most 3 bullish, 3 bearish and 2 neutral
    items: under each heading come the first items of the category, in
    order, numbered from 1, and a category without items gets no heading. *)
Theorem news_summary_caps `{PyRuntime} (s : Snapshot) :
  build_news_summary (snapshot_dict s)
  = Ok (summary_text bullish_heading 3 (bullish s)
        ++ summary_text bearish_heading 3 (bearish s)
        ++ summary_text neutral_heading 2 (neutral s))
  /\ forall (heading sentiment : pystr) (cap : nat) (items : list NewsItem),
       let entries := summary_entries 1 (take cap items) in
       summary_text heading cap items
       = match items with
         | [] => []
         | _ => heading ++ concat entries
         end
       /\ length entries = Nat.min cap (length items)
       /\ forall j it,
            j < cap -> items !! j = Some it ->
            entries !! j = Some (summary_entry (S j) it)
            /\ summary_line (S j) (item_dict sentiment it)
               = Ok (summary_entry (S j) it).
Proof.
  split; [apply build_news_summary_typed | ].
  intros heading sentiment cap items entries. subst entries.
  rewrite summary_entries_length, length_take.
  split; [destruct items; reflexivity | ].
  split; [reflexivity | ].
  intros j it Hj Hit. split.
  - apply (summary_entries_lookup _ 1 j it).
    rewrite lookup_take_lt by assumption. exact Hit.
  - apply summary_line_typed.
Qed.

Lemma news_summary_caps_witness :
  length (summary_entries 1 (take 3 (bullish fifty_bullish))) = 3
  /\ summary_entries 1 (take 3 (bullish fifty_bullish)) !! 2
     = Some (summary_entry 3 item_a).
Proof.
  destruct (@news_summary_caps plain_runtime fifty_bullish) as [_ Hblock].
  destruct (Hblock bullish_heading (lit "bullish") 3 (bullish fifty_bullish))
    as (_ & Hlen & Hnth).
  split; [exact Hlen | ].
  apply (Hnth 2 item_a); [lia | reflexivity].
Defined.

(** X16: for a well-typed snapshot the narrative is the reply of the chat
    request with the whitespace at both ends removed; the request carries
    the full number of items of each category and the news summary.  When
    the request raises, or its content is not a text, the narrative is
    empty. *)
Theorem narrative_of_typed_snapshot `{PyRuntime}
    (chat : pystr -> pystr -> result pyval) (s : Snapshot) :
  generate_fud_analysis (Some (fud_call chat)) (snapshot_dict s)
  = match chat system_message
            (user_message (length (bullish s)) (length (bearish s))
               (length (neutral s))
               (summary_text bullish_heading 3 (bullish s)
                ++ summary_text bearish_heading 3 (bearish s)
                ++ summary_text neutral_heading 2 (neutral s))) with
    | Ok (PStr text) => strip text
    | _ => []
    end.
Proof.
  unfold generate_fud_analysis. rewrite fud_call_typed.
  destruct (chat _ _) as [[ | | | text | | ] | e]; reflexivity.
Qed.

(** X17: a reply that consists of whitespace only is the same as no
    narrative: the composed message has no analysis block. *)
Theorem blank_narrative_is_omitted `{PyRuntime} (now text : pystr)
    (chat : pystr -> pystr -> result pyval) (s : Snapshot) :
  (forall system user, chat system user = Ok (PStr text)) ->
  Forall (fun c => is_space c = true) text ->
  generate_fud_analysis (Some (fud_call chat)) (snapshot_dict s) = []
  /\ format_telegram_message now (snapshot_dict s)
       (generate_fud_analysis (Some (fud_call chat)) (snapshot_dict s))
     = header
       ++ block_text bullish_header (bullish s)
       ++ block_text bearish_header (bearish s)
       ++ block_text neutral_header (neutral s)
       ++ footer now.
Proof.
  intros Hchat Hblank.
  assert (Hnone : generate_fud_analysis (Some (fud_call chat)) (snapshot_dict s)
                  = []).
  { unfold generate_fud_analysis. rewrite fud_call_typed, Hchat.
    cbn [mbind result_bind py_strip try_except]. unfold strip.
    rewrite (lstrip_spaces _ Hblank). reflexivity. }
  split; [exact Hnone | ].
  rewrite Hnone. unfold format_telegram_message.
  rewrite format_body_typed. reflexivity.
Qed.

Lemma blank_narrative_is_omitted_witness :
  @generate_fud_analysis (Some (@fud_call plain_runtime blank_chat))
     (snapshot_dict three_bullish) = [].
Proof.
  apply (@blank_narrative_is_omitted plain_runtime [] (lit "   ") blank_chat
           three_bullish).
  - intros system user. reflexivity.
  - repeat (apply Forall_cons; split; [reflexivity | ]). apply Forall_nil.
    exact I.
Defined.

(** ** The cycle *)

Lemma cycle_cases `{PyRuntime} (state : pyval) (c : collaborators) :
  send_news_update state c
  = match total_news (fetch_cryptopanic_api (the_feed c)) with
    | Raise e =>
        {| last_sent_news := state; ended := Failed e; handed_over := [] |}
    | Ok total =>
        if Nat.eqb total 0 then
          {| last_sent_news := state; ended := NoNews; handed_over := [] |}
        else if should_send_update state (fetch_cryptopanic_api (the_feed c))
        then
          match send_message c (cycle_message c) with
          | Some e =>
              {| last_sent_news := state; ended := Failed e;
                 handed_over := [cycle_message c] |}
          | None =>
              {| last_sent_news := fetch_cryptopanic_api (the_feed c);
                 ended := Sent; handed_over := [cycle_message c] |}
          end
        else
          {| last_sent_news := state; ended := NotSignificant;
             handed_over := [] |}
    end.
Proof.
  unfold send_news_update, cycle_message.
  destruct (total_news _) as [total | e]; [ | reflexivity].
  destruct (Nat.eqb total 0); [reflexivity | ].
  destruct (should_send_update _ _); [ | reflexivity].
  cbn [negb]. destruct (openai_client c); reflexivity.
Qed.

Lemma total_news_fetch (w : feed) :
  exists b be n,
    fetch_cryptopanic_api w = news_dict b be n
    /\ total_news (fetch_cryptopanic_api w)
       = Ok (length b + (length be + (length n + 0))).
Proof.
  destruct (fetch_shape w) as (b & be & n & Hshape).
  exists b, be, n. split; [exact Hshape | ].
  rewrite Hshape. apply total_news_dict.
Qed.

(** X18: on the first cycle any fetched news is sent: with the initial
    state, a snapshot with at least one entry, however few, is composed,
    handed to delivery and, when delivery accepts it, committed. *)
Theorem first_cycle_sends_any_news `{PyRuntime} (c : collaborators) :
  total_news (fetch_cryptopanic_api (the_feed c)) <> Ok 0 ->
  send_message c (cycle_message c) = None ->
  send_news_update initial_state c
  = {| last_sent_news := fetch_cryptopanic_api (the_feed c); ended := Sent;
       handed_over := [cycle_message c] |}.
Proof.
  intros Hsome Haccept. rewrite cycle_cases.
  destruct (total_news_fetch (the_feed c)) as (b & be & n & _ & Htotal).
  rewrite Htotal in Hsome |- *.
  destruct (Nat.eqb _ 0) eqn:Hzero.
  - apply Nat.eqb_eq in Hzero. rewrite Hzero in Hsome. destruct Hsome.
    reflexivity.
  - change (should_send_update initial_state _) with true.
    cbn iota. rewrite Haccept. reflexivity.
Qed.

Lemma first_cycle_sends_any_news_witness :
  ended (@send_news_update plain_runtime initial_state
           (world (feed_of one_bullish) accept_all)) = Sent.
Proof.
  rewrite (@first_cycle_sends_any_news plain_runtime
             (world (feed_of one_bullish) accept_all));
    [reflexivity | vm_compute; discriminate | reflexivity].
Defined.

(** X19: a cycle ends with an error only when delivery raised: the
    composed text was handed over, delivery answered with that exception,
    and the retained state is the one from before. *)
Theorem failure_comes_from_delivery `{PyRuntime} (state : pyval)
    (c : collaborators) (e : exn) :
  ended (send_news_update state c) = Failed e ->
  handed_over (send_news_update state c) = [cycle_message c]
  /\ send_message c (cycle_message c) = Some e
  /\ last_sent_news (send_news_update state c) = state.
Proof.
  rewrite cycle_cases.
  destruct (total_news_fetch (the_feed c)) as (b & be & n & _ & Htotal).
  rewrite Htotal.
  destruct (Nat.eqb _ 0); [discriminate | ].
  destruct (should_send_update _ _); [ | discriminate].
  destruct (send_message c (cycle_message c)) as [e' | ]; [ | discriminate].
  cbn [ended handed_over last_sent_news]. intros Hfailed.
  injection Hfailed as ->. repeat split; reflexivity.
Qed.

Lemma failure_comes_from_delivery_witness :
  send_message (world (feed_of three_bullish) reject_all)
    (@cycle_message plain_runtime (world (feed_of three_bullish) reject_all))
  = Some (ExternalError (lit "Timed out"))
  /\ last_sent_news (@send_news_update plain_runtime initial_state
                       (world (feed_of three_bullish) reject_all))
     = initial_state.
Proof.
  destruct (@failure_comes_from_delivery plain_runtime initial_state
              (world (feed_of three_bullish) reject_all)
              (ExternalError (lit "Timed out")))
    as (_ & Hsend & Hstate); [vm_compute; reflexivity | ].
  split; [exact Hsend | exact Hstate].
Defined.

(** X20: a narrative generator that raises is the same as none: the cycle
    does exactly what it does without a configured generator. *)
Theorem failing_generator_is_ignored `{PyRuntime} (state : pyval)
    (c : collaborators) (call : pyval -> result pystr) (e : exn) :
  openai_client c = Some call ->
  call (fetch_cryptopanic_api (the_feed c)) = Raise e ->
  send_news_update state c = send_news_update state (without_client c).
Proof.
  intros Hclient Hraise. rewrite !cycle_cases.
  assert (Hmsg : cycle_message c = cycle_message (without_client c)).
  { unfold cycle_message, without_client.
    cbn [the_feed openai_client now generate_fud_analysis].
    rewrite Hclient. cbn [generate_fud_analysis]. rewrite Hraise. reflexivity. }
  rewrite Hmsg. reflexivity.
Qed.

Lemma failing_generator_is_ignored_witness :
  @send_news_update plain_runtime initial_state
    (world_with (Some failing_client) (feed_of three_bullish) accept_all)
  = @send_news_update plain_runtime initial_state
      (world (feed_of three_bullish) accept_all).
Proof.
  exact (@failing_generator_is_ignored plain_runtime initial_state
           (world_with (Some failing_client) (feed_of three_bullish) accept_all)
           failing_client (ExternalError (lit "RateLimitError"))
           eq_refl eq_refl).
Defined.

(** X21: a cycle hands at most one text to delivery, and it is the composed
    one; it hands over nothing exactly when it ends as a skip. *)
Theorem cycle_hands_over_one_message `{PyRuntime} (state : pyval)
    (c : collaborators) :
  (handed_over (send_news_update state c) = []
   /\ skipped (ended (send_news_update state c)) = true)
  \/ (handed_over (send_news_update state c) = [cycle_message c]
      /\ skipped (ended (send_news_update state c)) = false
      /\ should_send_update state (fetch_cryptopanic_api (the_feed c)) = true).
Proof.
  rewrite cycle_cases.
  destruct (total_news_fetch (the_feed c)) as (b & be & n & _ & Htotal).
  rewrite Htotal.
  destruct (Nat.eqb _ 0); [left; split; reflexivity | ].
  destruct (should_send_update _ _); [ | left; split; reflexivity].
  right. destruct (send_message c (cycle_message c)); repeat split; reflexivity.
Qed.

(** X22: a composing failure does not stop the cycle: the error text is
    what is handed to delivery, and when delivery accepts it the snapshot is
    committed as sent. *)
Theorem format_failure_is_delivered `{PyRuntime} (state : pyval)
    (c : collaborators) (e : exn) :
  total_news (fetch_cryptopanic_api (the_feed c)) <> Ok 0 ->
  should_send_update state (fetch_cryptopanic_api (the_feed c)) = true ->
  format_body (now c) (fetch_cryptopanic_api (the_feed c))
    (generate_fud_analysis (openai_client c)
       (fetch_cryptopanic_api (the_feed c))) = Raise e ->
  send_message c (lit "Error formatting news: " ++ exn_str e) = None ->
  send_news_update state c
  = {| last_sent_news := fetch_cryptopanic_api (the_feed c); ended := Sent;
       handed_over := [lit "Error formatting news: " ++ exn_str e] |}.
Proof.
  intros Hsome Hsend Hraise Haccept.
  assert (Hmsg : cycle_message c = lit "Error formatting news: " ++ exn_str e).
  { unfold cycle_message, format_telegram_message. rewrite Hraise. reflexivity. }
  rewrite cycle_cases, Hmsg, Hsend, Haccept.
  destruct (total_news_fetch (the_feed c)) as (b & be & n & _ & Htotal).
  rewrite Htotal in Hsome |- *.
  destruct (Nat.eqb _ 0) eqn:Hzero; [ | reflexivity].
  apply Nat.eqb_eq in Hzero. rewrite Hzero in Hsome. destruct Hsome.
  reflexivity.
Qed.

Lemma format_failure_is_delivered_witness :
  @send_news_update plain_runtime initial_state
    (world null_title_feed accept_all)
  = {| last_sent_news := fetch_cryptopanic_api null_title_feed; ended := Sent;
       handed_over := [lit "Error formatting news: <error>"] |}.
Proof.
  apply (@format_failure_is_delivered plain_runtime initial_state
           (world null_title_feed accept_all) TypeError).
  - vm_compute. discriminate.
  - reflexivity.
  - vm_compute. reflexivity.
  - reflexivity.
Defined.

(** ** The scheduler *)

Lemma cycle_state `{PyRuntime} (state : pyval) (c : collaborators) :
  (ended (send_news_update state c) <> Sent
   /\ last_sent_news (send_news_update state c) = state)
  \/ (ended (send_news_update state c) = Sent
      /\ exists b be n,
           last_sent_news (send_news_update state c) = news_dict b be n
           /\ 0 < length b + length be + length n).
Proof.
  rewrite cycle_cases.
  destruct (total_news_fetch (the_feed c)) as (b & be & n & Hshape & Htotal).
  rewrite Htotal.
  destruct (Nat.eqb _ 0) eqn:Hzero; [left; split; [discriminate | reflexivity] | ].
  destruct (should_send_update _ _);
    [ | left; split; [discriminate | reflexivity]].
  destruct (send_message c (cycle_message c));
    [left; split; [discriminate | reflexivity] | ].
  right. split; [reflexivity | ]. exists b, be, n.
  split; [exact Hshape | ]. apply Nat.eqb_neq in Hzero. lia.
Qed.

Lemma schedule_updates_invariant `{PyRuntime} (cycles : list collaborators) :
  forall state,
    state_ok state ->
    state_ok (fst (schedule_updates state cycles))
    /\ length (snd (schedule_updates state cycles)) = length cycles
    /\ (fst (schedule_updates state cycles) = initial_state
        <-> state = initial_state
            /\ Forall (fun r => ended r <> Sent)
                      (snd (schedule_updates state cycles))).
Proof.
  induction cycles as [ | c cycles IH]; intros state Hok.
  - cbn. split; [exact Hok | ]. split; [reflexivity | ].
    split; [intros ->; split; [reflexivity | apply Forall_nil; exact I] | ].
    intros [-> _]. reflexivity.
  - cbn [schedule_updates].
    assert (Hnext : state_ok (last_sent_news (send_news_update state c))).
    { destruct (cycle_state state c) as [[_ ->] | [_ Hnews]];
        [exact Hok | right; exact Hnews]. }
    destruct (IH _ Hnext) as (Hfinal & Hlen & Hiff).
    destruct (schedule_updates (last_sent_news (send_news_update state c)) cycles)
      as [final later].
    cbn [fst snd] in *. split; [exact Hfinal | ].
    split; [cbn [length]; rewrite Hlen; reflexivity | ].
    rewrite Hiff, Forall_cons.
    destruct (cycle_state state c) as [[Hnot Hsame] | [Hsent Hnews]].
    + rewrite Hsame. tauto.
    + destruct Hnews as (b & be & n & Hdict & _). rewrite Hdict.
      split; [intros [Habs _]; discriminate Habs | ].
      intros [_ [Hnot _]]. destruct (Hnot Hsent).
Qed.

(** X24: over any number of cycles started from the initial state, the
    retained state is either still the initial empty dictionary or a
    fetched snapshot with at least one entry; it is still the initial one
    exactly when no cycle so far ended as sent, and every iteration records
    one outcome. *)
Theorem scheduler_state_invariant `{PyRuntime} (cycles : list collaborators) :
  state_ok (fst (schedule_updates initial_state cycles))
  /\ length (snd (schedule_updates initial_state cycles)) = length cycles
  /\ (fst (schedule_updates initial_state cycles) = initial_state
      <-> Forall (fun r => ended r <> Sent)
                 (snd (schedule_updates initial_state cycles))).
Proof.
  destruct (schedule_updates_invariant cycles initial_state)
    as (Hok & Hlen & Hiff); [left; reflexivity | ].
  split; [exact Hok | ]. split; [exact Hlen | ].
  rewrite Hiff. tauto.
Qed.

Lemma scheduler_state_invariant_witness :
  let c := world bullish_timeout accept_all in
  fst (@schedule_updates plain_runtime initial_state [c; c]) = initial_state.
Proof.
  intros c.
  destruct (@scheduler_state_invariant plain_runtime [c; c]) as (_ & _ & Hiff).
  apply Hiff.
  repeat (apply Forall_cons; split; [discriminate | ]). apply Forall_nil.
  exact I.
Defined.

Lemma quiet_cycles `{PyRuntime} (s : Snapshot) (cycles : list collaborators) :
  is_empty s = false ->
  Forall (fun c => fetch_cryptopanic_api (the_feed c) = snapshot_dict s) cycles ->
  fst (schedule_updates (snapshot_dict s) cycles) = snapshot_dict s
  /\ ended <$> snd (schedule_updates (snapshot_dict s) cycles)
     = replicate (length cycles) NotSignificant
  /\ Forall (fun r => handed_over r = [])
            (snd (schedule_updates (snapshot_dict s) cycles)).
Proof.
  intros Hsome Hfeed. induction Hfeed as [ | c cycles Hc _ IH].
  - repeat split. apply Forall_nil. exact I.
  - assert (Hquiet : send_news_update (snapshot_dict s) c
                     = {| last_sent_news := snapshot_dict s;
                          ended := NotSignificant; handed_over := [] |}).
    { rewrite cycle_cases, Hc.
      destruct (total_news_snapshot s) as (total & -> & Hzero).
      rewrite Hzero, Hsome. unfold should_send_update.
      rewrite should_send_update_typed. cbn [try_except].
      replace (new_item_count s s) with 0; [reflexivity | ].
      unfold new_item_count.
      rewrite !new_keys_subset by (intros t Ht; exact Ht). reflexivity. }
    cbn [schedule_updates]. rewrite Hquiet. cbn [last_sent_news].
    destruct IH as (Hstate & Hended & Hnone).
    destruct (schedule_updates (snapshot_dict s) cycles) as [final later].
    cbn [fst snd] in *. split; [exact Hstate | ].
    split; [rewrite fmap_cons, Hended; reflexivity | ].
    apply Forall_cons. split; [reflexivity | exact Hnone].
Qed.

(** X25: a feed that keeps returning the same non-empty snapshot, with
    delivery accepting, produces one message in all: from the initial state
    the first cycle ends as sent and every later cycle, however many, ends
    as the not-significant skip and hands nothing to delivery. *)
Theorem constant_feed_sends_once `{PyRuntime} (s : Snapshot)
    (first : collaborators) (later : list collaborators) :
  is_empty s = false ->
  Forall (fun c => fetch_cryptopanic_api (the_feed c) = snapshot_dict s)
         (first :: later) ->
  send_message first (cycle_message first) = None ->
  fst (schedule_updates initial_state (first :: later)) = snapshot_dict s
  /\ ended <$> snd (schedule_updates initial_state (first :: later))
     = Sent :: replicate (length later) NotSignificant
  /\ concat (handed_over <$> snd (schedule_updates initial_state (first :: later)))
     = [cycle_message first].
Proof.
  intros Hsome Hfeed Haccept.
  apply Forall_cons in Hfeed as [Hfirst Hlater].
  assert (Hsent : send_news_update initial_state first
                  = {| last_sent_news := snapshot_dict s; ended := Sent;
                       handed_over := [cycle_message first] |}).
  { rewrite cycle_cases, Hfirst.
    destruct (total_news_snapshot s) as (total & -> & Hzero).
    rewrite Hzero, Hsome.
    change (should_send_update initial_state (snapshot_dict s)) with true.
    cbn iota. rewrite Haccept. reflexivity. }
  cbn [schedule_updates]. rewrite Hsent. cbn [last_sent_news].
  destruct (quiet_cycles s later Hsome Hlater) as (Hstate & Hended & Hnone).
  destruct (schedule_updates (snapshot_dict s) later) as [final results].
  cbn [fst snd] in *. split; [exact Hstate | ].
  split; [rewrite fmap_cons, Hended; reflexivity | ].
  rewrite fmap_cons. cbn [handed_over concat app]. f_equal.
  clear Hended Hstate. induction Hnone as [ | r results Hr _ IH];
    [reflexivity | ].
  rewrite fmap_cons. cbn [concat]. rewrite Hr, IH. reflexivity.
Qed.

Lemma constant_feed_sends_once_witness :
  let c := world (feed_of three_bullish) accept_all in
  ended <$> snd (@schedule_updates plain_runtime initial_state [c; c; c; c])
  = [Sent; NotSignificant; NotSignificant; NotSignificant].
Proof.
  intros c.
  destruct (@constant_feed_sends_once plain_runtime three_bullish c [c; c; c])
    as (_ & Hended & _);
    [reflexivity
    | repeat (apply Forall_cons; split; [apply fetch_feed_of | ]);
      apply Forall_nil; exact I
    | reflexivity
    | exact Hended].
Defined.
